(** * Magstar V1 API client: a shallow embedding of [magstar_client.py]

    The client is a thin wrapper around an HTTP session.  Its only piece of
    control flow is the generator [iterate_station_measurements], which
    follows the server's cursor from page to page.  The embedding keeps
    Python's dynamic typing (values are untyped [pyval]s, checked where the
    source checks them), threads the outside world (the HTTP session and
    [time.sleep]) through a state-and-exception monad, and gives the
    generator a small-step semantics whose labels are the things a consumer
    and a server can observe. *)

From Stdlib Require Import ZArith List Floats.SpecFloat.
From stdpp Require Import base strings gmap pretty.
Import ListNotations.
Set Warnings "-register-all".
Local Open Scope string_scope.
Local Open Scope Z_scope.
Local Open Scope list_scope.

(** ** Python values *)

(** The values that reach the client: arguments supplied by the caller and
    whatever [json()] decodes.  A JSON object keeps its keys in document
    order, so it is an association list; [py_lookup] reads the first binding
    of a key. *)
Inductive pyval : Type :=
| PNone
| PBool (b : bool)
| PInt (n : Z)
| PFloat (x : spec_float)
| PStr (s : string)
| PList (l : list pyval)
| PDict (kvs : list (string * pyval)).

Inductive pyclass : Type :=
| NoneType | cls_bool | cls_int | cls_float | cls_str | cls_list | cls_dict.

Definition type_of (v : pyval) : pyclass :=
  match v with
  | PNone => NoneType
  | PBool _ => cls_bool
  | PInt _ => cls_int
  | PFloat _ => cls_float
  | PStr _ => cls_str
  | PList _ => cls_list
  | PDict _ => cls_dict
  end.

(** [bool] is a subclass of [int]; the other built-in classes used here are
    unrelated to each other. *)
Definition issubclass (c d : pyclass) : bool :=
  match c, d with
  | NoneType, NoneType | cls_bool, cls_bool | cls_int, cls_int
  | cls_float, cls_float | cls_str, cls_str | cls_list, cls_list
  | cls_dict, cls_dict => true
  | cls_bool, cls_int => true
  | _, _ => false
  end.

Definition isinstance (v : pyval) (c : pyclass) : bool :=
  issubclass (type_of v) c.

(** [x is not None] *)
Definition is_not_None (v : pyval) : bool :=
  match v with PNone => false | _ => true end.

(** Truth value testing, as used by [while], [if] and [and]. *)
Definition py_truthy (v : pyval) : bool :=
  match v with
  | PNone => false
  | PBool b => b
  | PInt n => negb (n =? 0)
  | PFloat (S754_zero _) => false
  | PFloat _ => true
  | PStr s => negb (String.eqb s "")
  | PList l => match l with [] => false | _ => true end
  | PDict kvs => match kvs with [] => false | _ => true end
  end.

(** ** Exceptions and results *)

Inductive exn : Type :=
| AssertionError
| TypeError
| KeyError (key : string)
| ValueError
| OverflowError
| JSONDecodeError
| HTTPError (status : Z)
| RequestException (kind : string).

Inductive result (A : Type) : Type :=
| Returns (a : A)
| Raises (e : exn).
Arguments Returns {A} a.
Arguments Raises {A} e.

Definition rbind {A B} (r : result A) (k : A -> result B) : result B :=
  match r with
  | Returns a => k a
  | Raises e => Raises e
  end.

Declare Scope result_scope.
Delimit Scope result_scope with result.
Notation "'let?' x ':=' r 'in' k" := (rbind r (fun x => k))
  (at level 10, x name, r at level 100, k at level 200) : result_scope.

(** [raw[key]] for a string key.  Only a [dict] can be subscripted by a
    string; a missing key is a [KeyError]. *)
Fixpoint py_lookup (kvs : list (string * pyval)) (key : string) : option pyval :=
  match kvs with
  | [] => None
  | (k, v) :: kvs' => if String.eqb k key then Some v else py_lookup kvs' key
  end.

Definition getitem (raw : pyval) (key : string) : result pyval :=
  match raw with
  | PDict kvs =>
      match py_lookup kvs key with
      | Some v => Returns v
      | None => Raises (KeyError key)
      end
  | _ => Raises TypeError
  end.

(** [iter(v)] unfolded to the list of items a [for] clause visits. *)
Definition py_iter (v : pyval) : result (list pyval) :=
  match v with
  | PList l => Returns l
  | PDict kvs => Returns (map (fun kv => PStr (fst kv)) kvs)
  | PStr s => Returns (map (fun c => PStr (String c EmptyString)) (String.list_ascii_of_string s))
  | _ => Raises TypeError
  end.

(** [[f(x) for x in xs]]: elements are converted left to right and the
    first failure aborts the comprehension. *)
Fixpoint comprehension {A B} (f : A -> result B) (xs : list A) : result (list B) :=
  match xs with
  | [] => Returns []
  | x :: xs' =>
      (let? y := f x in
       let? ys := comprehension f xs' in
       Returns (y :: ys))%result
  end.

(** ** Numbers *)

(** The double nearest to one tenth: [0x1.999999999999ap-4]. *)
Definition float_0_1 : spec_float := S754_finite false 7205759403792794 (-56).

(** Exact comparison of a double with an integer, as Python performs it
    (no rounding of the integer). *)
Definition SFcompare_Z (f : spec_float) (n : Z) : option comparison :=
  match f with
  | S754_nan => None
  | S754_infinity s => Some (if s then Lt else Gt)
  | S754_zero _ => Some (0 ?= n)
  | S754_finite s m e =>
      let v := if s then Z.neg m else Z.pos m in
      Some (if 0 <=? e then (v * 2 ^ e ?= n) else (v ?= n * 2 ^ (- e)))
  end.

(** Ordering of a float against an arbitrary value; [None] is "unordered"
    (a NaN is involved).  Values that are not numbers do not compare. *)
Definition float_compare (f : spec_float) (v : pyval) : result (option comparison) :=
  match v with
  | PInt n => Returns (SFcompare_Z f n)
  | PBool b => Returns (SFcompare_Z f (if b then 1 else 0))
  | PFloat g => Returns (SFcompare f g)
  | _ => Raises TypeError
  end.

(** [f > v] *)
Definition float_gt (f : spec_float) (v : pyval) : result bool :=
  (let? c := float_compare f v in
   Returns match c with Some Gt => true | _ => false end)%result.

(** [f <= v] *)
Definition float_le (f : spec_float) (v : pyval) : result bool :=
  (let? c := float_compare f v in
   Returns match c with Some Lt | Some Eq => true | _ => false end)%result.

(** [max(a, f)] for a float [f]: the builtin keeps its first argument
    unless the second is strictly greater. *)
Definition py_max (a : pyval) (f : spec_float) : result pyval :=
  (let? gt := float_gt f a in
   Returns (if gt then PFloat f else a))%result.

(** ["{0}".format(v)].  Both callers assert [isinstance(v, int)] first, so
    only integers and booleans are ever formatted; the remaining cases are
    never evaluated. *)
Definition py_format (v : pyval) : string :=
  match v with
  | PInt n => pretty n
  | PBool true => "True"
  | PBool false => "False"
  | PNone => "None"
  | PStr s => s
  | _ => ""
  end.

(** ** The outside world *)

(** [urljoin] belongs to the standard library; a URL is kept as the pair of
    its arguments. *)
Inductive url : Type := urljoin (base sub_url : string).

Record request : Type := {
  req_url : url;
  req_params : option (gmap string pyval);
  req_headers : gmap string string;
}.

Record response : Type := {
  status_code : Z;
  (** the decoded body, [None] when it is not JSON *)
  body_json : option pyval;
}.

(** What the process does to its surroundings, oldest first. *)
Inductive event : Type :=
| EvGet (rq : request)
| EvSleep (seconds : pyval).

Definition world : Type := list event.

(** The surroundings answer as a function of everything that happened
    before: the server (or a mock in its place) and [time.sleep]. *)
Record environment : Type := {
  session_get : world -> request -> result response;
  time_sleep : world -> pyval -> result unit;
}.

(** Computations that touch the world. *)
Definition M (A : Type) : Type := world -> result A * world.

Definition ret {A} (a : A) : M A := fun w => (Returns a, w).

Definition raise {A} (e : exn) : M A := fun w => (Raises e, w).

Definition bind {A B} (m : M A) (k : A -> M B) : M B :=
  fun w =>
    match m w with
    | (Returns a, w') => k a w'
    | (Raises e, w') => (Raises e, w')
    end.

Definition lift {A} (r : result A) : M A := fun w => (r, w).

Declare Scope io_scope.
Delimit Scope io_scope with io.
Notation "'let*' x ':=' m 'in' k" := (bind m (fun x => k))
  (at level 10, x name, m at level 100, k at level 200) : io_scope.

(** [assert c] *)
Definition assert (c : bool) : M unit :=
  if c then ret tt else raise AssertionError.

(** [Response.raise_for_status()]: client and server errors raise. *)
Definition raise_for_status (r : response) : result unit :=
  if (400 <=? status_code r) && (status_code r <? 600)
  then Raises (HTTPError (status_code r))
  else Returns tt.

(** [Response.json()] *)
Definition json (r : response) : result pyval :=
  match body_json r with
  | Some v => Returns v
  | None => Raises JSONDecodeError
  end.

Definition gets (tr : world) : list request :=
  omap (fun ev => match ev with EvGet rq => Some rq | EvSleep _ => None end) tr.

Definition sleeps (tr : world) : list pyval :=
  omap (fun ev => match ev with EvSleep d => Some d | EvGet _ => None end) tr.

(** ** Record types *)

Definition __version__ : string := "0.1.0".

Module MagstarStationExtendedData.
Record t : Type := {
  station_id : pyval;
  name : pyval;
  location : pyval;
  lat : pyval;
  lon : pyval;
  acronym : pyval;
  status : pyval;
  last_seen : pyval;
  earliest_timestamp : pyval;
  latest_timestamp : pyval;
  latest_x : pyval;
  latest_y : pyval;
  latest_z : pyval;
  latest_horizontal_field_angle : pyval;
  latest_horizontal_field_magnitude : pyval;
}.

Definition from_api (raw : pyval) : result t :=
  (let? a1 := getitem raw "station_id" in
   let? a2 := getitem raw "name" in
   let? a3 := getitem raw "location" in
   let? a4 := getitem raw "lat" in
   let? a5 := getitem raw "lon" in
   let? a6 := getitem raw "acronym" in
   let? a7 := getitem raw "status" in
   let? a8 := getitem raw "last_seen" in
   let? a9 := getitem raw "earliest_timestamp" in
   let? a10 := getitem raw "latest_timestamp" in
   let? a11 := getitem raw "latest_x" in
   let? a12 := getitem raw "latest_y" in
   let? a13 := getitem raw "latest_z" in
   let? a14 := getitem raw "latest_horizontal_field_angle" in
   let? a15 := getitem raw "latest_horizontal_field_magnitude" in
   Returns {|
     station_id := a1; name := a2; location := a3; lat := a4; lon := a5;
     acronym := a6; status := a7; last_seen := a8;
     earliest_timestamp := a9; latest_timestamp := a10;
     latest_x := a11; latest_y := a12; latest_z := a13;
     latest_horizontal_field_angle := a14;
     latest_horizontal_field_magnitude := a15;
   |})%result.
End MagstarStationExtendedData.

Module MagstarMeasurement.
Record t : Type := {
  timestamp : pyval;
  b_x : pyval;
  b_y : pyval;
  b_z : pyval;
  temperature : pyval;
  horizontal_field_angle : pyval;
  horizontal_field_magnitude : pyval;
  operator_config_hash : pyval;
  instrument_config_hash : pyval;
}.

Definition from_api (raw : pyval) : result t :=
  (let? a1 := getitem raw "timestamp" in
   let? a2 := getitem raw "x" in
   let? a3 := getitem raw "y" in
   let? a4 := getitem raw "z" in
   let? a5 := getitem raw "temperature" in
   let? a6 := getitem raw "horizontal_field_angle" in
   let? a7 := getitem raw "horizontal_field_magnitude" in
   let? a8 := getitem raw "operator_config_hash" in
   let? a9 := getitem raw "instrument_config_hash" in
   Returns {|
     timestamp := a1; b_x := a2; b_y := a3; b_z := a4; temperature := a5;
     horizontal_field_angle := a6; horizontal_field_magnitude := a7;
     operator_config_hash := a8; instrument_config_hash := a9;
   |})%result.
End MagstarMeasurement.

Module MagstarMeasurementResult.
Record t : Type := {
  measurements : list MagstarMeasurement.t;
  has_further_data : pyval;
  next_ts : pyval;
}.

Definition from_api (raw : pyval) : result t :=
  (let? raw_measurements := getitem raw "measurements" in
   let? items := py_iter raw_measurements in
   let? ms := comprehension MagstarMeasurement.from_api items in
   let? more := getitem raw "has_further_data" in
   let? ts := getitem raw "next_ts" in
   Returns {| measurements := ms; has_further_data := more; next_ts := ts |})%result.
End MagstarMeasurementResult.

(** ** The client *)

(** The fields of a [MagstarV1API] object; its [session] is the
    [environment]. *)
Record MagstarV1API : Type := {
  base_url : string;
  api_key : string;
}.

(** Lines 177-185: the query of one page request. *)
Definition measurement_params (after_ts before_ts limit : pyval) (reverse_order : bool)
  : gmap string pyval :=
  let params : gmap string pyval := {[ "reverse_order" := PBool reverse_order ]} in
  let params := if is_not_None after_ts then <[ "after_ts" := after_ts ]> params else params in
  let params := if is_not_None before_ts then <[ "before_ts" := before_ts ]> params else params in
  let params := if is_not_None limit then <[ "limit" := limit ]> params else params in
  params.

Section Client.
Context (env : environment) (self : MagstarV1API).

Definition headers : gmap string string :=
  {[ "X-API-Key" := api_key self;
     "User-Agent" := "MagstarV1API (" +:+ __version__ +:+ ")" ]}.

Definition _get (sub_url : string) (params : option (gmap string pyval)) : M pyval :=
  fun w =>
    let rq := {| req_url := urljoin (base_url self) sub_url;
                 req_params := params;
                 req_headers := headers |} in
    let w' := w ++ [EvGet rq] in
    (let? result := session_get env w rq in
     let? _ := raise_for_status result in
     json result, w')%result.

Definition get_station_details_by_id (station_id : pyval)
  : M MagstarStationExtendedData.t :=
  (let* _ := assert (isinstance station_id cls_int) in
   let* raw := _get ("/v1/stations/" +:+ py_format station_id) None in
   lift (MagstarStationExtendedData.from_api raw))%io.

Definition get_station_measurements_by_id
    (station_id after_ts before_ts limit : pyval) (reverse_order : bool)
  : M MagstarMeasurementResult.t :=
  (let* _ := assert (isinstance station_id cls_int) in
   let params := measurement_params after_ts before_ts limit reverse_order in
   let* raw := _get ("/v1/stations/" +:+ py_format station_id +:+ "/measurements")
                    (Some params) in
   lift (MagstarMeasurementResult.from_api raw))%io.

(** [time.sleep(seconds)] *)
Definition sleep (seconds : pyval) : M unit :=
  fun w => (time_sleep env w seconds, w ++ [EvSleep seconds]).
End Client.

(** ** The streaming iterator *)

(** The local variables of [iterate_station_measurements]. *)
Record frame : Type := {
  station_id : pyval;
  reverse_order : bool;
  poll_delay : pyval;
  need_measurements : pyval;
  next_after_ts : pyval;
  next_before_ts : pyval;
}.

(** A generator object: where its body stands and what it remembers.
    [Created] holds the arguments of a call whose body has not started;
    [AtWhile] is the loop test of line 212; [InFor] is the [for] of line 217
    with the measurements still to be yielded; [Finished] is a generator
    that returned or raised. *)
Inductive generator : Type :=
| Created (station_id after_ts before_ts : pyval) (reverse_order : bool) (poll_delay : pyval)
| AtWhile (f : frame)
| InFor (f : frame) (result : MagstarMeasurementResult.t) (rest : list MagstarMeasurement.t)
| Finished.

(** Calling the generator function runs none of its body. *)
Definition iterate_station_measurements
    (station_id after_ts before_ts : pyval) (reverse_order : bool) (poll_delay : pyval)
  : generator :=
  Created station_id after_ts before_ts reverse_order poll_delay.

(** What one step of the body does, as seen from outside. *)
Inductive label : Type :=
| Tau
| Fetched (page : MagstarMeasurementResult.t)
| Yielded (m : MagstarMeasurement.t)
| Slept
| Stopped
| Raised (e : exn).

(** Lines 219-223: the bookkeeping after the last measurement of a page. *)
Definition advance (f : frame) (result : MagstarMeasurementResult.t) : frame :=
  let more := MagstarMeasurementResult.has_further_data result in
  let f := {| station_id := station_id f; reverse_order := reverse_order f;
              poll_delay := poll_delay f;
              need_measurements := more;
              next_after_ts := next_after_ts f;
              next_before_ts := next_before_ts f |} in
  if py_truthy more && reverse_order f then
    {| station_id := station_id f; reverse_order := reverse_order f;
       poll_delay := poll_delay f; need_measurements := need_measurements f;
       next_after_ts := next_after_ts f;
       next_before_ts := MagstarMeasurementResult.next_ts result |}
  else if py_truthy more then
    {| station_id := station_id f; reverse_order := reverse_order f;
       poll_delay := poll_delay f; need_measurements := need_measurements f;
       next_after_ts := MagstarMeasurementResult.next_ts result;
       next_before_ts := next_before_ts f |}
  else f.

Section Iterator.
Context (env : environment) (self : MagstarV1API).

Definition step (g : generator) (w : world) : label * generator * world :=
  match g with
  | Created sid after_ts before_ts rev delay =>
      match py_max delay float_0_1 with
      | Returns delay' =>
          (Tau,
           AtWhile {| station_id := sid; reverse_order := rev; poll_delay := delay';
                      need_measurements := PBool true;
                      next_after_ts := after_ts; next_before_ts := before_ts |},
           w)
      | Raises e => (Raised e, Finished, w)
      end
  | AtWhile f =>
      if py_truthy (need_measurements f) then
        match get_station_measurements_by_id env self (station_id f)
                (next_after_ts f) (next_before_ts f) (PInt 2500) (reverse_order f) w with
        | (Returns result, w') =>
            (Fetched result, InFor f result (MagstarMeasurementResult.measurements result), w')
        | (Raises e, w') => (Raised e, Finished, w')
        end
      else (Stopped, Finished, w)
  | InFor f result (m :: rest) => (Yielded m, InFor f result rest, w)
  | InFor f result [] =>
      let f' := advance f result in
      match sleep env (poll_delay f') w with
      | (Returns _, w') => (Slept, AtWhile f', w')
      | (Raises e, w') => (Raised e, Finished, w')
      end
  | Finished => (Stopped, Finished, w)
  end.

(** [n] steps of the body, whoever asked for them. *)
Fixpoint exec (n : nat) (g : generator) (w : world) : list label * generator * world :=
  match n with
  | O => ([], g, w)
  | S n' =>
      let '(lab, g1, w1) := step g w in
      let '(labs, g2, w2) := exec n' g1 w1 in
      (lab :: labs, g2, w2)
  end.

(** Steps that hand control back to the consumer. *)
Definition hands_back (lab : label) : bool :=
  match lab with
  | Yielded _ | Stopped | Raised _ => true
  | _ => false
  end.

(** Steps after which the consumer's loop is over. *)
Definition ends_iteration (lab : label) : bool :=
  match lab with
  | Stopped | Raised _ => true
  | _ => false
  end.

(** [next(g)]: the body runs until it yields, returns or raises.  [fuel]
    bounds the number of steps; [None] means it ran out. *)
Fixpoint gen_next (fuel : nat) (g : generator) (w : world)
  : option (list label * generator * world) :=
  match fuel with
  | O => None
  | S fuel' =>
      let '(lab, g1, w1) := step g w in
      if hands_back lab then Some ([lab], g1, w1)
      else
        match gen_next fuel' g1 w1 with
        | Some (labs, g2, w2) => Some (lab :: labs, g2, w2)
        | None => None
        end
  end.

(** A consumer that asks for at most [k] elements and then stops asking,
    each [next] with [fuel] steps. *)
Fixpoint gen_take (fuel : nat) (k : nat) (g : generator) (w : world)
  : option (list label * generator * world) :=
  match k with
  | O => Some ([], g, w)
  | S k' =>
      match gen_next fuel g w with
      | None => None
      | Some (labs, g1, w1) =>
          if existsb ends_iteration labs then Some (labs, g1, w1)
          else
            match gen_take fuel k' g1 w1 with
            | Some (labs', g2, w2) => Some (labs ++ labs', g2, w2)
            | None => None
            end
      end
  end.

(** A consumer that iterates to the end: [for m in g: ...]. *)
Fixpoint exhaust (fuel : nat) (g : generator) (w : world)
  : option (list label * generator * world) :=
  match fuel with
  | O => None
  | S fuel' =>
      let '(lab, g1, w1) := step g w in
      if ends_iteration lab then Some ([lab], g1, w1)
      else
        match exhaust fuel' g1 w1 with
        | Some (labs, g2, w2) => Some (lab :: labs, g2, w2)
        | None => None
        end
  end.
End Iterator.

(** The measurements delivered to the consumer, the pages fetched, and the
    exceptions that reached the consumer, in order. *)
Definition yields (labs : list label) : list MagstarMeasurement.t :=
  omap (fun lab => match lab with Yielded m => Some m | _ => None end) labs.

Definition pages (labs : list label) : list MagstarMeasurementResult.t :=
  omap (fun lab => match lab with Fetched p => Some p | _ => None end) labs.

Definition raised (labs : list label) : list exn :=
  omap (fun lab => match lab with Raised e => Some e | _ => None end) labs.


(** ** Requests and their decoding, as the client performs them *)

Section Requests.
Context (self : MagstarV1API).

(** The request sent for one page of measurements. *)
Definition measurements_request
    (station_id after_ts before_ts limit : pyval) (reverse_order : bool) : request :=
  {| req_url := urljoin (base_url self)
                  ("/v1/stations/" +:+ py_format station_id +:+ "/measurements");
     req_params := Some (measurement_params after_ts before_ts limit reverse_order);
     req_headers := headers self |}.

(** The request sent for the details of one station. *)
Definition details_request (station_id : pyval) : request :=
  {| req_url := urljoin (base_url self) ("/v1/stations/" +:+ py_format station_id);
     req_params := None;
     req_headers := headers self |}.

(** What the client makes of a response to a page request. *)
Definition decode_page (r : result response) : result MagstarMeasurementResult.t :=
  (let? resp := r in
   let? _ := raise_for_status resp in
   let? raw := json resp in
   MagstarMeasurementResult.from_api raw)%result.

Definition decode_details (r : result response) : result MagstarStationExtendedData.t :=
  (let? resp := r in
   let? _ := raise_for_status resp in
   let? raw := json resp in
   MagstarStationExtendedData.from_api raw)%result.
End Requests.

(** The keys of a station-detail object, in the order the client reads
    them. *)
Definition detail_fields : list string :=
  [ "station_id"; "name"; "location"; "lat"; "lon"; "acronym"; "status";
    "last_seen"; "earliest_timestamp"; "latest_timestamp"; "latest_x";
    "latest_y"; "latest_z"; "latest_horizontal_field_angle";
    "latest_horizontal_field_magnitude" ].

(** The keys a page request may carry. *)
Definition page_request_keys : list string :=
  [ "reverse_order"; "after_ts"; "before_ts"; "limit" ].

(** ** Vocabulary for statements about runs *)

(** Every fetched page has been handed to the consumer in full. *)
Definition fully_delivered (labs : list label) : Prop :=
  yields labs = concat (map MagstarMeasurementResult.measurements (pages labs)).

(** The local variables of a generator whose body is running. *)
Definition frame_of (g : generator) : option frame :=
  match g with
  | AtWhile f | InFor f _ _ => Some f
  | Created _ _ _ _ _ | Finished => None
  end.

(** [paced d b tr b']: the events of [tr] alternate between a request and a
    sleep of [d] seconds.  [b] tells whether a request is due at the start
    of [tr], [b'] whether one is due after it. *)
Inductive paced (d : pyval) : bool -> world -> bool -> Prop :=
| paced_nil (b : bool) : paced d b [] b
| paced_get (rq : request) (tr : world) (b : bool) :
    paced d false tr b -> paced d true (EvGet rq :: tr) b
| paced_sleep (tr : world) (b : bool) :
    paced d true tr b -> paced d false (EvSleep d :: tr) b.

(** What holds of a run of [iterate_station_measurements station_id after_ts
    before_ts reverse_order poll_delay] started in world [w0], after it has
    produced the labels [labs] and reached generator [g] and world [w]. *)
Section Invariant.
Context (sid after0 before0 : pyval) (rev : bool) (delay : pyval) (w0 : world).

(** The frame still belongs to the call: same station, same direction, the
    clamped delay, and the bound opposite to the direction of travel as
    the caller gave it. *)
Definition frame_ok (f : frame) : Prop :=
  station_id f = sid
  /\ reverse_order f = rev
  /\ py_max delay float_0_1 = Returns (poll_delay f)
  /\ (if rev then next_after_ts f = after0 else next_before_ts f = before0).

Definition run_invariant (labs : list label) (g : generator) (w : world) : Prop :=
  exists tr, w = w0 ++ tr /\
    match g with
    | Created sid' after' before' rev' delay' =>
        sid' = sid /\ after' = after0 /\ before' = before0 /\ rev' = rev
        /\ delay' = delay /\ labs = [] /\ tr = []
    | AtWhile f =>
        frame_ok f /\ fully_delivered labs /\ paced (poll_delay f) true tr true
    | InFor f result rest =>
        frame_ok f /\ isinstance sid cls_int = true
        /\ paced (poll_delay f) true tr false
        /\ exists earlier done,
             pages labs = earlier ++ [result]
             /\ MagstarMeasurementResult.measurements result = done ++ rest
             /\ yields labs
                = concat (map MagstarMeasurementResult.measurements earlier) ++ done
    | Finished =>
        fully_delivered labs
        /\ (forall d, py_max delay float_0_1 = Returns d -> exists b, paced d true tr b)
        /\ (forall e, py_max delay float_0_1 = Raises e -> tr = [])
    end.
End Invariant.

(** The [k]-th request sent after [w0] (counting from 0) is answered by a
    response that decodes to [page], whatever is asked: a page source that
    returns its pages in a fixed order. *)
Definition nth_page_is (env : environment) (w0 : world) (k : nat)
    (page : MagstarMeasurementResult.t) : Prop :=
  forall tr rq, length (gets tr) = k ->
    decode_page (session_get env (w0 ++ tr) rq) = Returns page.

(** ** Sample servers *)

(** Concrete surroundings on which the statements below are exercised. *)
Module Sample.
Definition measurement (t : Z) : pyval :=
  PDict [ ("timestamp", PInt t); ("x", PInt 1); ("y", PInt 2); ("z", PInt 3);
          ("temperature", PInt 20);
          ("horizontal_field_angle", PNone);
          ("horizontal_field_magnitude", PNone);
          ("operator_config_hash", PNone);
          ("instrument_config_hash", PNone) ].

Definition page (timestamps : list Z) (more : bool) (next_ts : pyval) : pyval :=
  PDict [ ("measurements", PList (map measurement timestamps));
          ("has_further_data", PBool more);
          ("next_ts", next_ts) ].

Definition details (id : Z) : pyval :=
  PDict [ ("station_id", PInt id); ("name", PStr "Boulder"); ("location", PNone);
          ("lat", PNone); ("lon", PNone); ("acronym", PStr "BOU");
          ("status", PNone); ("last_seen", PNone);
          ("earliest_timestamp", PNone); ("latest_timestamp", PNone);
          ("latest_x", PNone); ("latest_y", PNone); ("latest_z", PNone);
          ("latest_horizontal_field_angle", PNone);
          ("latest_horizontal_field_magnitude", PNone) ].

(** A server that answers the [k]-th request with the [k]-th body of a
    script, and refuses connections once the script is over; sleeping
    always succeeds. *)
Definition scripted (bodies : list pyval) : environment :=
  {| session_get := fun w _ =>
       match nth_error bodies (length (gets w)) with
       | Some body => Returns {| status_code := 200; body_json := Some body |}
       | None => Raises (RequestException "ConnectionError")
       end;
     time_sleep := fun _ _ => Returns tt |}.

Definition client : MagstarV1API :=
  {| base_url := "https://magstar.example"; api_key := "secret" |}.

(** Two measurements and more to come; three more and more to come; a
    last one. *)
Definition three_pages : environment :=
  scripted [ page [10; 20] true (PInt 20);
             page [30; 40; 50] true (PInt 50);
             page [60] false PNone ].

(** A first page without measurements that reports further data. *)
Definition empty_first_page : environment :=
  scripted [ page [] true (PInt 5); page [7] false PNone ].

(** One page, then the connection fails. *)
Definition failing_second_page : environment :=
  scripted [ page [10; 20] true (PInt 20) ].
End Sample.

(** The sample call the worked instances use: station 7, an upper bound of
    100, forward, with a requested delay of 0. *)
Module SampleRun.
Definition call : generator :=
  iterate_station_measurements (PInt 7) PNone (PInt 100) false (PInt 0).

(** The page a body decodes to (the empty page stands in when it does
    not decode). *)
Definition decoded (body : pyval) : MagstarMeasurementResult.t :=
  match MagstarMeasurementResult.from_api body with
  | Returns page => page
  | Raises _ =>
      {| MagstarMeasurementResult.measurements := [];
         MagstarMeasurementResult.has_further_data := PBool false;
         MagstarMeasurementResult.next_ts := PNone |}
  end.

Definition p1 : MagstarMeasurementResult.t :=
  decoded (Sample.page [10; 20] true (PInt 20)).
Definition p2 : MagstarMeasurementResult.t :=
  decoded (Sample.page [30; 40; 50] true (PInt 50)).
Definition p3 : MagstarMeasurementResult.t :=
  decoded (Sample.page [60] false PNone).
End SampleRun.

(** The record a sample measurement decodes to. *)
Definition sample_measurement_record (t : Z) : MagstarMeasurement.t :=
  {| MagstarMeasurement.timestamp := PInt t;
     MagstarMeasurement.b_x := PInt 1;
     MagstarMeasurement.b_y := PInt 2;
     MagstarMeasurement.b_z := PInt 3;
     MagstarMeasurement.temperature := PInt 20;
     MagstarMeasurement.horizontal_field_angle := PNone;
     MagstarMeasurement.horizontal_field_magnitude := PNone;
     MagstarMeasurement.operator_config_hash := PNone;
     MagstarMeasurement.instrument_config_hash := PNone |}.


(** ** The station list *)

Module MagstarStationData.
Record t : Type := {
  station_id : pyval;
  name : pyval;
  location : pyval;
  lat : pyval;
  lon : pyval;
  acronym : pyval;
  status : pyval;
  last_seen : pyval;
}.

Definition from_api (raw : pyval) : result t :=
  (let? a1 := getitem raw "station_id" in
   let? a2 := getitem raw "name" in
   let? a3 := getitem raw "location" in
   let? a4 := getitem raw "lat" in
   let? a5 := getitem raw "lon" in
   let? a6 := getitem raw "acronym" in
   let? a7 := getitem raw "status" in
   let? a8 := getitem raw "last_seen" in
   Returns {|
     station_id := a1; name := a2; location := a3; lat := a4; lon := a5;
     acronym := a6; status := a7; last_seen := a8;
   |})%result.
End MagstarStationData.

Section Stations.
Context (env : environment) (self : MagstarV1API).

(** Line 154: one record per element of the decoded body, in its order. *)
Definition get_stations : M (list MagstarStationData.t) :=
  (let* raw := _get env self "/v1/stations" None in
   lift (let? items := py_iter raw in
         comprehension MagstarStationData.from_api items)%result)%io.
End Stations.

(** ** More vocabulary *)

(** The first of [fields] that the object [kvs] lacks. *)
Fixpoint first_missing (kvs : list (string * pyval)) (fields : list string)
  : option string :=
  match fields with
  | [] => None
  | key :: fields' =>
      match py_lookup kvs key with
      | Some _ => first_missing kvs fields'
      | None => Some key
      end
  end.

(** The keys of a station summary and of a measurement, in the order the
    client reads them. *)
Definition summary_fields : list string :=
  [ "station_id"; "name"; "location"; "lat"; "lon"; "acronym"; "status";
    "last_seen" ].

Definition measurement_fields : list string :=
  [ "timestamp"; "x"; "y"; "z"; "temperature"; "horizontal_field_angle";
    "horizontal_field_magnitude"; "operator_config_hash";
    "instrument_config_hash" ].

(** The values that [max] can compare with a float. *)
Definition is_number (v : pyval) : bool :=
  match v with
  | PBool _ | PInt _ | PFloat _ => true
  | _ => false
  end.

(** The server always has more: every request, whenever it is sent, is
    answered by a page that reports further data. *)
Definition always_more (env : environment) : Prop :=
  forall w rq, exists page,
    decode_page (session_get env w rq) = Returns page
    /\ py_truthy (MagstarMeasurementResult.has_further_data page) = true.

(** The same, with pages that hold no measurement. *)
Definition always_more_and_empty (env : environment) : Prop :=
  forall w rq, exists page,
    decode_page (session_get env w rq) = Returns page
    /\ py_truthy (MagstarMeasurementResult.has_further_data page) = true
    /\ MagstarMeasurementResult.measurements page = [].

(** [tr] is the script [ps] being served: the [k]-th request after [w0] is
    answered by the [k]-th page. *)
Definition serves (env : environment) (w0 : world)
    (ps : list MagstarMeasurementResult.t) : Prop :=
  forall k page, nth_error ps k = Some page -> nth_page_is env w0 k page.

(** Every page but the last reports further data; the last does not. *)
Fixpoint ends_with_last_page (ps : list MagstarMeasurementResult.t) : Prop :=
  match ps with
  | [] => False
  | [page] => py_truthy (MagstarMeasurementResult.has_further_data page) = false
  | page :: ps' =>
      py_truthy (MagstarMeasurementResult.has_further_data page) = true
      /\ ends_with_last_page ps'
  end.

(** The labels of one turn of the loop on [page], and of a whole script. *)
Definition turn_labels (page : MagstarMeasurementResult.t) : list label :=
  Fetched page :: map Yielded (MagstarMeasurementResult.measurements page) ++ [Slept].

Definition script_labels (ps : list MagstarMeasurementResult.t) : list label :=
  concat (map turn_labels ps).

(** The requests that fetch the script [ps] starting from the bounds
    [after_ts] and [before_ts]: each page's [next_ts] replaces the bound on
    the side of travel for the request that follows it. *)
Fixpoint script_requests (self : MagstarV1API) (sid : pyval) (rev : bool)
    (after_ts before_ts : pyval) (ps : list MagstarMeasurementResult.t)
  : list request :=
  match ps with
  | [] => []
  | page :: ps' =>
      measurements_request self sid after_ts before_ts (PInt 2500) rev
      :: script_requests self sid rev
           (if rev then after_ts else MagstarMeasurementResult.next_ts page)
           (if rev then MagstarMeasurementResult.next_ts page else before_ts)
           ps'
  end.

(** A request for a page of the station [sid] in direction [rev]: the
    measurements path of that station, the credentials, the full page
    size and the direction. *)
Definition is_page_request (self : MagstarV1API) (sid : pyval) (rev : bool)
    (rq : request) : Prop :=
  req_url rq
  = urljoin (base_url self) ("/v1/stations/" +:+ py_format sid +:+ "/measurements")
  /\ req_headers rq !! "X-API-Key" = Some (api_key self)
  /\ req_headers rq !! "User-Agent" = Some "MagstarV1API (0.1.0)"
  /\ exists params,
       req_params rq = Some params
       /\ params !! "limit" = Some (PInt 2500)
       /\ params !! "reverse_order" = Some (PBool rev).

(** How the traffic of a run relates to what the consumer saw of it: [tr]
    is what the run added to the world, [labs] its labels, [g] the
    generator it reached. *)
Definition traffic_invariant (self : MagstarV1API) (sid : pyval) (rev : bool)
    (labs : list label) (g : generator) (tr : world) : Prop :=
  Forall (is_page_request self sid rev) (gets tr)
  /\ (length (pages labs) <= length (gets tr)
      <= length (pages labs) + length (raised labs))%nat
  /\ (length (raised labs) <= 1)%nat
  /\ match g with
     | Created _ _ _ _ _ => labs = [] /\ tr = []
     | AtWhile _ =>
         raised labs = [] /\ length (sleeps tr) = length (pages labs)
     | InFor _ _ _ =>
         raised labs = [] /\ S (length (sleeps tr)) = length (pages labs)
     | Finished => (length (sleeps tr) <= length (pages labs))%nat
     end.

(** ** More sample servers *)

Module SampleMore.
(** A server that answers every request with the same body. *)
Definition constant (body : pyval) : environment :=
  {| session_get := fun _ _ => Returns {| status_code := 200; body_json := Some body |};
     time_sleep := fun _ _ => Returns tt |}.

(** New data keeps arriving. *)
Definition endless : environment :=
  constant (Sample.page [10] true (PInt 10)).

(** Further data is announced but none is delivered. *)
Definition endless_empty : environment :=
  constant (Sample.page [] true (PInt 10)).

(** One final page, and a [time.sleep] that rejects every delay. *)
Definition rejecting_sleep : environment :=
  {| session_get := fun _ _ =>
       Returns {| status_code := 200;
                  body_json := Some (Sample.page [10; 20] false PNone) |};
     time_sleep := fun _ _ => Raises ValueError |}.

(** A station list of two. *)
Definition summary (id : Z) (name : string) : pyval :=
  PDict [ ("station_id", PInt id); ("name", PStr name); ("location", PNone);
          ("lat", PNone); ("lon", PNone); ("acronym", PNone);
          ("status", PNone); ("last_seen", PNone) ].

Definition two_stations : environment :=
  constant (PList [ summary 7 "Boulder"; summary 9 "Fairbanks" ]).
End SampleMore.

Module SampleErrors.
(** A server that does not know the station. *)
Definition not_found : environment :=
  {| session_get := fun _ _ => Returns {| status_code := 404; body_json := Some PNone |};
     time_sleep := fun _ _ => Returns tt |}.
End SampleErrors.

(** The path a request asks for: the second argument handed to
    [urljoin]. *)
Definition sub_url_of (u : url) : string :=
  match u with urljoin _ sub_url => sub_url end.
(** * Properties *)

(** ** Argument checks *)

(** The integer check lets integers and booleans through and nothing else. *)
Lemma isinstance_int_true (v : pyval) :
  isinstance v cls_int = true <-> (exists n, v = PInt n) \/ (exists b, v = PBool b).
Proof.
  destruct v; cbn; split; intros H; try discriminate; eauto;
    destruct H as [[? H] | [? H]]; discriminate.
Qed.

Lemma assert_false_raises (w : world) : assert false w = (Raises AssertionError, w).
Proof. reflexivity. Qed.

Section RequestLemmas.
Context (env : environment) (self : MagstarV1API).

(** A page fetch whose integer check passes sends exactly one request and
    returns what the response decodes to. *)
Lemma get_station_measurements_by_id_sends sid after_ts before_ts limit rev w :
  isinstance sid cls_int = true ->
  get_station_measurements_by_id env self sid after_ts before_ts limit rev w =
    (decode_page (session_get env w (measurements_request self sid after_ts before_ts limit rev)),
     w ++ [EvGet (measurements_request self sid after_ts before_ts limit rev)]).
Proof.
  intros Hint. unfold get_station_measurements_by_id, bind, assert, _get, lift.
  rewrite Hint. cbn. fold (measurements_request self sid after_ts before_ts limit rev).
  unfold decode_page.
  destruct (session_get env w _) as [resp | e]; cbn; [ | reflexivity ].
  destruct (raise_for_status resp); cbn; [ | reflexivity ].
  destruct (json resp); reflexivity.
Qed.

Lemma get_station_details_by_id_sends sid w :
  isinstance sid cls_int = true ->
  get_station_details_by_id env self sid w =
    (decode_details (session_get env w (details_request self sid)),
     w ++ [EvGet (details_request self sid)]).
Proof.
  intros Hint. unfold get_station_details_by_id, bind, assert, _get, lift.
  rewrite Hint. cbn. fold (details_request self sid).
  unfold decode_details.
  destruct (session_get env w _) as [resp | e]; cbn; [ | reflexivity ].
  destruct (raise_for_status resp); cbn; [ | reflexivity ].
  destruct (json resp); reflexivity.
Qed.

(** A page fetch either leaves the world alone (the check failed) or adds
    one request to it. *)
Lemma get_station_measurements_by_id_world sid after_ts before_ts limit rev w :
  snd (get_station_measurements_by_id env self sid after_ts before_ts limit rev w) = w
  \/ snd (get_station_measurements_by_id env self sid after_ts before_ts limit rev w)
     = w ++ [EvGet (measurements_request self sid after_ts before_ts limit rev)].
Proof.
  destruct (isinstance sid cls_int) eqn:Hint.
  - right. by rewrite get_station_measurements_by_id_sends.
  - left. unfold get_station_measurements_by_id, bind. by rewrite Hint.
Qed.

Lemma get_station_measurements_by_id_returns sid after_ts before_ts limit rev w p w' :
  get_station_measurements_by_id env self sid after_ts before_ts limit rev w
    = (Returns p, w') ->
  isinstance sid cls_int = true.
Proof.
  destruct (isinstance sid cls_int) eqn:Hint; [ done | ].
  unfold get_station_measurements_by_id, bind. rewrite Hint. cbn. discriminate.
Qed.
End RequestLemmas.

(** C3.  A station id that is not an instance of [int] makes
    [get_station_details_by_id] fail its argument check with
    [AssertionError], and the world is left exactly as it was: no request
    has been sent. *)
Theorem get_station_details_rejects_non_integer
    (env : environment) (self : MagstarV1API) (station_id : pyval) (w : world) :
  isinstance station_id cls_int = false ->
  get_station_details_by_id env self station_id w = (Raises AssertionError, w).
Proof.
  intros Hint. unfold get_station_details_by_id, bind. rewrite Hint.
  reflexivity.
Qed.

(** C10.  The page fetcher makes the same check first: a station id that is
    not an instance of [int] raises [AssertionError] and sends nothing. *)
Theorem get_station_measurements_rejects_non_integer
    (env : environment) (self : MagstarV1API)
    (station_id after_ts before_ts limit : pyval) (reverse_order : bool) (w : world) :
  isinstance station_id cls_int = false ->
  get_station_measurements_by_id env self station_id after_ts before_ts limit
    reverse_order w = (Raises AssertionError, w).
Proof.
  intros Hint. unfold get_station_measurements_by_id, bind. rewrite Hint.
  reflexivity.
Qed.

(** A boolean is an instance of [int]: it passes the check and is formatted
    into the path by its name. *)
Lemma get_station_details_accepts_bool
    (env : environment) (self : MagstarV1API) (w : world) :
  snd (get_station_details_by_id env self (PBool true) w)
  = w ++ [EvGet {| req_url := urljoin (base_url self) "/v1/stations/True";
                   req_params := None;
                   req_headers := headers self |}].
Proof. by rewrite get_station_details_by_id_sends. Qed.

(** What the transport raises, the page fetcher raises: a failure of the
    session, an error status, a body that is not JSON. *)
Lemma page_fetch_raises_transport_errors
    (env : environment) (self : MagstarV1API)
    (sid after_ts before_ts limit : pyval) (rev : bool) (w : world) :
  isinstance sid cls_int = true ->
  let rq := measurements_request self sid after_ts before_ts limit rev in
  (forall e, session_get env w rq = Raises e ->
     get_station_measurements_by_id env self sid after_ts before_ts limit rev w
     = (Raises e, w ++ [EvGet rq]))
  /\ (forall resp, session_get env w rq = Returns resp ->
        400 <= status_code resp < 600 ->
        get_station_measurements_by_id env self sid after_ts before_ts limit rev w
        = (Raises (HTTPError (status_code resp)), w ++ [EvGet rq]))
  /\ (forall resp, session_get env w rq = Returns resp ->
        raise_for_status resp = Returns tt ->
        body_json resp = None ->
        get_station_measurements_by_id env self sid after_ts before_ts limit rev w
        = (Raises JSONDecodeError, w ++ [EvGet rq])).
Proof.
  intros Hint rq. repeat split.
  - intros e He. rewrite get_station_measurements_by_id_sends by done.
    fold rq. by rewrite He.
  - intros resp Hresp [Hlo Hhi]. rewrite get_station_measurements_by_id_sends by done.
    fold rq. rewrite Hresp. unfold decode_page, raise_for_status. cbn.
    apply Z.leb_le in Hlo. apply Z.ltb_lt in Hhi. by rewrite Hlo, Hhi.
  - intros resp Hresp Hstatus Hbody.
    rewrite get_station_measurements_by_id_sends by done.
    fold rq. rewrite Hresp. unfold decode_page, json. cbn. by rewrite Hstatus, Hbody.
Qed.

(** ** Query parameters *)

Lemma measurement_params_reverse_order after_ts before_ts limit rev :
  measurement_params after_ts before_ts limit rev !! "reverse_order" = Some (PBool rev).
Proof.
  unfold measurement_params.
  destruct (is_not_None after_ts), (is_not_None before_ts), (is_not_None limit);
    by simplify_map_eq.
Qed.

Lemma measurement_params_after_ts after_ts before_ts limit rev :
  measurement_params after_ts before_ts limit rev !! "after_ts"
  = if is_not_None after_ts then Some after_ts else None.
Proof.
  unfold measurement_params.
  destruct (is_not_None after_ts), (is_not_None before_ts), (is_not_None limit);
    by simplify_map_eq.
Qed.

Lemma measurement_params_before_ts after_ts before_ts limit rev :
  measurement_params after_ts before_ts limit rev !! "before_ts"
  = if is_not_None before_ts then Some before_ts else None.
Proof.
  unfold measurement_params.
  destruct (is_not_None after_ts), (is_not_None before_ts), (is_not_None limit);
    by simplify_map_eq.
Qed.

Lemma measurement_params_limit after_ts before_ts limit rev :
  measurement_params after_ts before_ts limit rev !! "limit"
  = if is_not_None limit then Some limit else None.
Proof.
  unfold measurement_params.
  destruct (is_not_None after_ts), (is_not_None before_ts), (is_not_None limit);
    by simplify_map_eq.
Qed.

Lemma measurement_params_keys after_ts before_ts limit rev key :
  is_Some (measurement_params after_ts before_ts limit rev !! key) ->
  key ∈ page_request_keys.
Proof.
  unfold measurement_params, page_request_keys. intros [v Hv].
  destruct (decide (key = "reverse_order")) as [-> | ?]; [ set_solver | ].
  destruct (decide (key = "after_ts")) as [-> | ?]; [ set_solver | ].
  destruct (decide (key = "before_ts")) as [-> | ?]; [ set_solver | ].
  destruct (decide (key = "limit")) as [-> | ?]; [ set_solver | ].
  exfalso.
  destruct (is_not_None after_ts), (is_not_None before_ts), (is_not_None limit);
    by simplify_map_eq.
Qed.

(** C5.  With [limit] left at [None] the request sent by
    [get_station_measurements_by_id] has no [limit] parameter; with
    [limit = N], for any integer [N] whatever its size, the parameter is
    [N] itself. *)
Theorem limit_is_passed_through
    (env : environment) (self : MagstarV1API)
    (station_id after_ts before_ts : pyval) (reverse_order : bool) (w : world) :
  isinstance station_id cls_int = true ->
  (exists rq params,
      snd (get_station_measurements_by_id env self station_id after_ts before_ts
             PNone reverse_order w) = w ++ [EvGet rq]
      /\ req_params rq = Some params
      /\ params !! "limit" = None)
  /\ (forall N : Z, exists rq params,
         snd (get_station_measurements_by_id env self station_id after_ts before_ts
                (PInt N) reverse_order w) = w ++ [EvGet rq]
         /\ req_params rq = Some params
         /\ params !! "limit" = Some (PInt N)).
Proof.
  intros Hint. split; [ | intros N ];
    eexists _, _; rewrite get_station_measurements_by_id_sends by done;
    (split; [ reflexivity | split; [ reflexivity | ] ]);
    by rewrite measurement_params_limit.
Qed.

(** C6.  The query built by [get_station_measurements_by_id] always has
    [reverse_order]; it has [after_ts], [before_ts] and [limit] exactly when
    the argument is not [None], each with the caller's value; and it has no
    other key. *)
Theorem query_parameters_follow_arguments
    (env : environment) (self : MagstarV1API)
    (station_id after_ts before_ts limit : pyval) (reverse_order : bool) (w : world) :
  isinstance station_id cls_int = true ->
  exists rq params,
    snd (get_station_measurements_by_id env self station_id after_ts before_ts
           limit reverse_order w) = w ++ [EvGet rq]
    /\ req_params rq = Some params
    /\ params !! "reverse_order" = Some (PBool reverse_order)
    /\ params !! "after_ts" = (if is_not_None after_ts then Some after_ts else None)
    /\ params !! "before_ts" = (if is_not_None before_ts then Some before_ts else None)
    /\ params !! "limit" = (if is_not_None limit then Some limit else None)
    /\ (forall key, is_Some (params !! key) -> key ∈ page_request_keys).
Proof.
  intros Hint. eexists _, _.
  rewrite get_station_measurements_by_id_sends by done.
  split; [ reflexivity | split; [ reflexivity | ] ].
  rewrite measurement_params_reverse_order, measurement_params_after_ts,
    measurement_params_before_ts, measurement_params_limit.
  repeat split. apply measurement_params_keys.
Qed.

(** ** Station details *)

Lemma from_api_details_of_fields (kvs : list (string * pyval)) :
  Forall (fun key => is_Some (py_lookup kvs key)) detail_fields ->
  exists d,
    MagstarStationExtendedData.from_api (PDict kvs) = Returns d
    /\ Some (MagstarStationExtendedData.station_id d) = py_lookup kvs "station_id".
Proof.
  unfold detail_fields. intros Hall.
  repeat match type of Hall with
         | Forall _ (_ :: _) => apply Forall_cons in Hall as [[? ?] Hall]
         end.
  unfold MagstarStationExtendedData.from_api, getitem.
  repeat match goal with
         | H : py_lookup kvs _ = Some _ |- _ => rewrite H; clear H
         end.
  cbn. eexists. split; reflexivity.
Qed.

(** C9.  Take an integer station id that the server knows: the request for
    [/v1/stations/<id>] is answered, without an error status, by a detail
    object that has every field and carries that id.  Then
    [get_station_details_by_id] sends that one request and returns a detail
    record whose [station_id] is the requested id. *)
Theorem get_station_details_returns_requested_id
    (env : environment) (self : MagstarV1API) (id : Z) (w : world)
    (resp : response) (kvs : list (string * pyval)) :
  let rq := {| req_url := urljoin (base_url self) ("/v1/stations/" +:+ pretty id);
               req_params := None;
               req_headers := headers self |} in
  session_get env w rq = Returns resp ->
  raise_for_status resp = Returns tt ->
  body_json resp = Some (PDict kvs) ->
  Forall (fun key => is_Some (py_lookup kvs key)) detail_fields ->
  py_lookup kvs "station_id" = Some (PInt id) ->
  exists d,
    get_station_details_by_id env self (PInt id) w = (Returns d, w ++ [EvGet rq])
    /\ MagstarStationExtendedData.station_id d = PInt id.
Proof.
  intros rq Hget Hstatus Hbody Hfields Hid.
  destruct (from_api_details_of_fields kvs Hfields) as (d & Hd & Hsid).
  exists d. split.
  - rewrite get_station_details_by_id_sends by reflexivity.
    change (details_request self (PInt id)) with rq.
    rewrite Hget. unfold decode_details, json. cbn.
    rewrite Hstatus, Hbody. cbn. by rewrite Hd.
  - rewrite Hid in Hsid. by injection Hsid.
Qed.

(** ** Runs of the generator *)

Lemma paced_app d b1 tr1 b2 tr2 b3 :
  paced d b1 tr1 b2 -> paced d b2 tr2 b3 -> paced d b1 (tr1 ++ tr2) b3.
Proof.
  induction 1; intros Hrest; cbn; [ done | | ]; constructor; auto.
Qed.

Lemma yields_app labs1 labs2 : yields (labs1 ++ labs2) = yields labs1 ++ yields labs2.
Proof. apply omap_app. Qed.

Lemma pages_app labs1 labs2 : pages (labs1 ++ labs2) = pages labs1 ++ pages labs2.
Proof. apply omap_app. Qed.

Lemma raised_app labs1 labs2 : raised (labs1 ++ labs2) = raised labs1 ++ raised labs2.
Proof. apply omap_app. Qed.

Lemma gets_app tr1 tr2 : gets (tr1 ++ tr2) = gets tr1 ++ gets tr2.
Proof. apply omap_app. Qed.

Section Runs.
Context (env : environment) (self : MagstarV1API).

Lemma exec_app n m g w :
  exec env self (n + m) g w =
    let '(labs1, g1, w1) := exec env self n g w in
    let '(labs2, g2, w2) := exec env self m g1 w1 in
    (labs1 ++ labs2, g2, w2).
Proof.
  revert g w. induction n as [ | n IH ]; intros g w; cbn.
  - by destruct (exec env self m g w) as [[? ?] ?].
  - destruct (step env self g w) as [[lab g1] w1]. rewrite IH.
    destruct (exec env self n g1 w1) as [[labs1 g2] w2].
    by destruct (exec env self m g2 w2) as [[? ?] ?].
Qed.

Lemma exec_length n g w :
  length (fst (fst (exec env self n g w))) = n.
Proof.
  revert g w. induction n as [ | n IH ]; intros g w; cbn; [ done | ].
  destruct (step env self g w) as [[lab g1] w1].
  specialize (IH g1 w1). destruct (exec env self n g1 w1) as [[? ?] ?].
  cbn in *. by rewrite IH.
Qed.

(** A run can be cut at any label. *)
Lemma exec_split n g w labs1 labs2 g2 w2 :
  exec env self n g w = (labs1 ++ labs2, g2, w2) ->
  exists g1 w1,
    exec env self (length labs1) g w = (labs1, g1, w1)
    /\ exec env self (length labs2) g1 w1 = (labs2, g2, w2).
Proof.
  intros Hrun.
  assert (n = (length labs1 + length labs2)%nat) as ->.
  { pose proof (exec_length n g w) as Hlen. rewrite Hrun in Hlen. cbn in Hlen.
    by rewrite length_app in Hlen. }
  rewrite exec_app in Hrun.
  pose proof (exec_length (length labs1) g w) as Hlen1.
  destruct (exec env self (length labs1) g w) as [[l1 g1] w1]. cbn in Hlen1.
  pose proof (exec_length (length labs2) g1 w1) as Hlen2.
  destruct (exec env self (length labs2) g1 w1) as [[l2 g2'] w2'] eqn:Hrest.
  cbn in Hlen2. injection Hrun as Hlabs -> ->.
  apply app_inj_1 in Hlabs as [-> ->]; [ | done ].
  by exists g1, w1.
Qed.

(** A finished generator stays finished and does nothing. *)
Lemma exec_Finished k w :
  exec env self k Finished w = (repeat Stopped k, Finished, w).
Proof. induction k as [ | k IH ]; cbn; [ done | by rewrite IH ]. Qed.

(** Yielding the rest of a page takes one step per measurement and leaves
    the world alone. *)
Lemma exec_page f result rest w :
  exec env self (length rest) (InFor f result rest) w
  = (map Yielded rest, InFor f result [], w).
Proof. induction rest as [ | m rest IH ]; cbn; [ done | by rewrite IH ]. Qed.

(** Whatever a consumer obtains, it obtains by some number of steps. *)
Lemma gen_next_exec fuel g w r :
  gen_next env self fuel g w = Some r -> exists n, exec env self n g w = r.
Proof.
  revert g w r. induction fuel as [ | fuel IH ]; intros g w r; cbn; [ done | ].
  destruct (step env self g w) as [[lab g1] w1] eqn:Hstep.
  destruct (hands_back lab).
  - intros [= <-]. exists 1%nat. cbn. by rewrite Hstep.
  - destruct (gen_next env self fuel g1 w1) as [[[labs g2] w2] | ] eqn:Hnext; [ | done ].
    intros [= <-]. destruct (IH _ _ _ Hnext) as [n Hn].
    exists (S n). cbn. by rewrite Hstep, Hn.
Qed.

Lemma gen_take_exec fuel k g w r :
  gen_take env self fuel k g w = Some r -> exists n, exec env self n g w = r.
Proof.
  revert g w r. induction k as [ | k IH ]; intros g w r; cbn.
  - intros [= <-]. by exists 0%nat.
  - destruct (gen_next env self fuel g w) as [[[labs g1] w1] | ] eqn:Hnext; [ | done ].
    destruct (gen_next_exec _ _ _ _ Hnext) as [n Hn].
    destruct (existsb ends_iteration labs).
    { intros [= <-]. by exists n. }
    destruct (gen_take env self fuel k g1 w1) as [[[labs' g2] w2] | ] eqn:Htake; [ | done ].
    intros [= <-]. destruct (IH _ _ _ Htake) as [m Hm].
    exists (n + m)%nat. by rewrite exec_app, Hn, Hm.
Qed.

Lemma exhaust_exec fuel g w r :
  exhaust env self fuel g w = Some r -> exists n, exec env self n g w = r.
Proof.
  revert g w r. induction fuel as [ | fuel IH ]; intros g w r; cbn; [ done | ].
  destruct (step env self g w) as [[lab g1] w1] eqn:Hstep.
  destruct (ends_iteration lab).
  - intros [= <-]. exists 1%nat. cbn. by rewrite Hstep.
  - destruct (exhaust env self fuel g1 w1) as [[[labs g2] w2] | ] eqn:Hnext; [ | done ].
    intros [= <-]. destruct (IH _ _ _ Hnext) as [n Hn].
    exists (S n). cbn. by rewrite Hstep, Hn.
Qed.
End Runs.

(** ** The invariant of a run *)

Section RunInvariant.
Context (env : environment) (self : MagstarV1API).
Context (sid after0 before0 : pyval) (rev : bool) (delay : pyval) (w0 : world).

Local Abbreviation inv := (run_invariant sid after0 before0 rev delay w0).
Local Abbreviation ok := (frame_ok sid after0 before0 rev delay).

Lemma run_invariant_start :
  inv [] (iterate_station_measurements sid after0 before0 rev delay) w0.
Proof. exists []. rewrite app_nil_r. by repeat split. Qed.

Lemma frame_ok_advance f result : ok f -> ok (advance f result).
Proof.
  intros (Hsid & Hrev & Hdelay & Hbound). unfold advance, frame_ok.
  destruct (py_truthy (MagstarMeasurementResult.has_further_data result)); cbn.
  - destruct (reverse_order f) eqn:Hdir; cbn; subst rev; by rewrite ?Hdir.
  - subst rev. by repeat split.
Qed.

Lemma poll_delay_advance f result : poll_delay (advance f result) = poll_delay f.
Proof.
  unfold advance.
  destruct (py_truthy (MagstarMeasurementResult.has_further_data result)); cbn;
    [ by destruct (reverse_order f) | done ].
Qed.

(** Except while it is yielding, the generator owes the consumer
    nothing. *)
Lemma not_yielding_fully_delivered labs g w lab g' w' :
  inv labs g w ->
  step env self g w = (lab, g', w') ->
  (forall m, lab <> Yielded m) ->
  fully_delivered labs.
Proof.
  intros (tr & -> & Hg) Hstep Hlab. destruct g as [ ? ? ? ? ? | f | f result rest | ].
  - destruct Hg as (_ & _ & _ & _ & _ & -> & _). reflexivity.
  - by destruct Hg as (_ & ? & _).
  - destruct rest as [ | m rest ]; [ | cbn in Hstep; injection Hstep as <- _ _; by destruct (Hlab m) ].
    destruct Hg as (_ & _ & _ & earlier & done & Hpages & Hmeas & Hyields).
    unfold fully_delivered. rewrite Hyields, Hpages, map_app, concat_app. cbn.
    by rewrite Hmeas, !app_nil_r.
  - by destruct Hg as (? & _).
Qed.

Lemma run_invariant_step labs g w lab g' w' :
  inv labs g w ->
  step env self g w = (lab, g', w') ->
  inv (labs ++ [lab]) g' w'.
Proof.
  intros Hinv Hstep.
  pose proof (not_yielding_fully_delivered _ _ _ _ _ _ Hinv Hstep) as Hfull.
  destruct Hinv as (tr & -> & Hg).
  destruct g as [ sid' after' before' rev' delay' | f | f result rest | ]; cbn in Hstep.
  - (* the body starts *)
    destruct Hg as (-> & -> & -> & -> & -> & -> & ->).
    destruct (py_max delay float_0_1) as [ d | e ] eqn:Hmax;
      injection Hstep as <- <- <-; exists []; (split; [ done | ]).
    + split; [ unfold frame_ok; cbn; by destruct rev | ]. split; [ done | ]. constructor.
    + split; [ reflexivity | ]. split; [ intros d Hd; rewrite Hmax in Hd; discriminate | done ].
  - (* the loop test *)
    destruct Hg as (Hok & Hdel & Hpaced).
    pose proof Hok as (Hsid & Hrev & Hmax & Hbound).
    destruct (py_truthy (need_measurements f)).
    + pose proof (get_station_measurements_by_id_world env self (station_id f)
                    (next_after_ts f) (next_before_ts f) (PInt 2500)
                    (reverse_order f) (w0 ++ tr)) as Hworld.
      destruct (get_station_measurements_by_id env self _ _ _ _ _ _)
        as [[page | e] w1] eqn:Hfetch; injection Hstep as <- <- <-; cbn in Hworld.
      * apply get_station_measurements_by_id_returns in Hfetch as Hint.
        rewrite get_station_measurements_by_id_sends in Hfetch by done.
        injection Hfetch as _ <-.
        exists (tr ++ [EvGet (measurements_request self (station_id f) (next_after_ts f)
                                (next_before_ts f) (PInt 2500) (reverse_order f))]).
        split; [ by rewrite app_assoc | ].
        split; [ done | ]. split; [ by rewrite <- Hsid | ].
        split; [ eapply paced_app; [ done | repeat constructor ] | ].
        exists (pages labs), []. rewrite pages_app, yields_app. cbn.
        rewrite !app_nil_r. by repeat split.
      * assert (exists tr', w1 = w0 ++ tr' /\ exists b, paced (poll_delay f) true tr' b)
          as (tr' & -> & b & Hpaced').
        { destruct Hworld as [-> | ->].
          - exists tr. split; [ done | by exists true ].
          - eexists. split; [ by rewrite <- app_assoc | ].
            exists false. eapply paced_app; [ done | repeat constructor ]. }
        exists tr'. split; [ done | ]. split; [ | split ].
        -- unfold fully_delivered. rewrite yields_app, pages_app. cbn.
           rewrite !app_nil_r. apply Hdel.
        -- intros d Hd. rewrite Hmax in Hd. injection Hd as <-. by exists b.
        -- intros e' He'. rewrite Hmax in He'. discriminate.
    + injection Hstep as <- <- <-. exists tr. split; [ done | ]. split; [ | split ].
      * unfold fully_delivered. rewrite yields_app, pages_app. cbn.
        rewrite !app_nil_r. apply Hdel.
      * intros d Hd. rewrite Hmax in Hd. injection Hd as <-. by exists true.
      * intros e' He'. rewrite Hmax in He'. discriminate.
  - (* within a page *)
    destruct Hg as (Hok & Hint & Hpaced & earlier & done & Hpages & Hmeas & Hyields).
    pose proof Hok as (Hsid & Hrev & Hmax & Hbound).
    destruct rest as [ | m rest ].
    + assert (fully_delivered (labs ++ [lab])) as Hfull'.
      { assert (yields [lab] = [] /\ pages [lab] = []) as [Hy Hp].
        { unfold sleep in Hstep. destruct (time_sleep env _ _);
            injection Hstep as <- _ _; done. }
        unfold fully_delivered. rewrite yields_app, pages_app, Hy, Hp, !app_nil_r.
        apply Hfull. unfold sleep in Hstep.
        destruct (time_sleep env _ _); injection Hstep as <- _ _; done. }
      unfold sleep in Hstep. rewrite poll_delay_advance in Hstep.
      assert (paced (poll_delay f) true (tr ++ [EvSleep (poll_delay f)]) true) as Hpaced'.
      { eapply paced_app; [ done | repeat constructor ]. }
      destruct (time_sleep env _ _); injection Hstep as <- <- <-;
        exists (tr ++ [EvSleep (poll_delay f)]); (split; [ by rewrite app_assoc | ]).
      * split; [ by apply frame_ok_advance | ].
        split; [ done | by rewrite poll_delay_advance ].
      * split; [ done | ]. split.
        -- intros d Hd. rewrite Hmax in Hd. injection Hd as <-. by exists true.
        -- intros e' He'. rewrite Hmax in He'. discriminate.
    + injection Hstep as <- <- <-. exists tr. split; [ done | ].
      split; [ done | ]. split; [ done | ]. split; [ done | ].
      exists earlier, (done ++ [m]). rewrite pages_app, yields_app. cbn.
      rewrite app_nil_r, Hpages, Hmeas, Hyields, <- !app_assoc. done.
  - (* finished *)
    injection Hstep as <- <- <-. destruct Hg as (Hdel & Hpaced & Hnone).
    exists tr. split; [ done | ]. split; [ | done ].
    unfold fully_delivered. rewrite yields_app, pages_app. cbn.
    rewrite !app_nil_r. apply Hdel.
Qed.

Lemma run_invariant_exec n labs0 g w labs g' w' :
  inv labs0 g w ->
  exec env self n g w = (labs, g', w') ->
  inv (labs0 ++ labs) g' w'.
Proof.
  revert labs0 g w labs. induction n as [ | n IH ]; intros labs0 g w labs Hinv; cbn.
  - intros [= <- <- <-]. by rewrite app_nil_r.
  - destruct (step env self g w) as [[lab g1] w1] eqn:Hstep.
    destruct (exec env self n g1 w1) as [[labs1 g2] w2] eqn:Hrun.
    intros [= <- <- <-].
    replace (labs0 ++ lab :: labs1) with ((labs0 ++ [lab]) ++ labs1)
      by by rewrite <- app_assoc.
    eapply IH; [ | done ]. by eapply run_invariant_step.
Qed.

(** The invariant holds after any number of steps from the call. *)
Lemma run_invariant_reachable n labs g w :
  exec env self n (iterate_station_measurements sid after0 before0 rev delay) w0
    = (labs, g, w) ->
  inv labs g w.
Proof.
  intros Hrun. change labs with ([] ++ labs).
  eapply run_invariant_exec; [ apply run_invariant_start | done ].
Qed.
End RunInvariant.

(** ** Iterating to the end *)

Section Exhaust.
Context (env : environment) (self : MagstarV1API).

(** Steps that do not end the iteration are a prefix of what an
    exhausting consumer sees. *)
Lemma exhaust_after_exec n fuel g w labs g1 w1 :
  exec env self n g w = (labs, g1, w1) ->
  existsb ends_iteration labs = false ->
  exhaust env self (n + fuel) g w =
    match exhaust env self fuel g1 w1 with
    | Some (labs', g2, w2) => Some (labs ++ labs', g2, w2)
    | None => None
    end.
Proof.
  revert g w labs. induction n as [ | n IH ]; intros g w labs; cbn.
  - intros [= <- <- <-] _. by destruct (exhaust env self fuel g w) as [[[? ?] ?] | ].
  - destruct (step env self g w) as [[lab g'] w'] eqn:Hstep.
    destruct (exec env self n g' w') as [[labs' g''] w''] eqn:Hrun.
    intros [= <- <- <-]. cbn. intros [Hlab Hrest]%orb_false_elim.
    rewrite Hlab, (IH _ _ _ Hrun Hrest).
    by destruct (exhaust env self fuel g'' w'') as [[[? ?] ?] | ].
Qed.

Lemma exhaust_more_fuel fuel extra g w r :
  exhaust env self fuel g w = Some r ->
  exhaust env self (fuel + extra) g w = Some r.
Proof.
  revert g w r. induction fuel as [ | fuel IH ]; intros g w r; cbn; [ done | ].
  destruct (step env self g w) as [[lab g'] w'].
  destruct (ends_iteration lab); [ done | ].
  destruct (exhaust env self fuel g' w') as [[[labs g''] w''] | ] eqn:Hrest; [ | done ].
  intros [= <-]. by rewrite (IH _ _ _ Hrest).
Qed.

(** One turn of the loop on a page that arrives and a sleep that returns:
    the fetch, the measurements in page order, the pause. *)
Lemma exec_loop_turn f w page :
  py_truthy (need_measurements f) = true ->
  isinstance (station_id f) cls_int = true ->
  let rq := measurements_request self (station_id f) (next_after_ts f)
              (next_before_ts f) (PInt 2500) (reverse_order f) in
  decode_page (session_get env w rq) = Returns page ->
  time_sleep env (w ++ [EvGet rq]) (poll_delay f) = Returns tt ->
  exec env self (1 + length (MagstarMeasurementResult.measurements page) + 1) (AtWhile f) w
  = (Fetched page :: map Yielded (MagstarMeasurementResult.measurements page) ++ [Slept],
     AtWhile (advance f page),
     w ++ [EvGet rq; EvSleep (poll_delay f)]).
Proof.
  intros Hneed Hint rq Hpage Hsleep.
  rewrite exec_app. cbn [Nat.add exec step]. rewrite Hneed.
  rewrite get_station_measurements_by_id_sends by done. fold rq. rewrite Hpage.
  rewrite exec_page. cbn. unfold sleep. rewrite poll_delay_advance, Hsleep.
  by rewrite <- app_assoc.
Qed.
End Exhaust.

Lemma yields_map_Yielded ms : yields (map Yielded ms) = ms.
Proof. induction ms as [ | m ms IH ]; cbn; [ done | by f_equal ]. Qed.

Lemma pages_map_Yielded ms : pages (map Yielded ms) = [].
Proof. induction ms as [ | m ms IH ]; by cbn. Qed.

Lemma raised_map_Yielded ms : raised (map Yielded ms) = [].
Proof. induction ms as [ | m ms IH ]; by cbn. Qed.

Lemma existsb_ends_iteration_map_Yielded ms :
  existsb ends_iteration (map Yielded ms) = false.
Proof. induction ms as [ | m ms IH ]; by cbn. Qed.

Lemma existsb_ends_iteration_turn page :
  existsb ends_iteration
    (Fetched page :: map Yielded (MagstarMeasurementResult.measurements page) ++ [Slept])
  = false.
Proof. cbn. by rewrite existsb_app, existsb_ends_iteration_map_Yielded. Qed.

Lemma yields_turn page :
  yields (Fetched page :: map Yielded (MagstarMeasurementResult.measurements page) ++ [Slept])
  = MagstarMeasurementResult.measurements page.
Proof.
  change (yields (Fetched page :: ?l)) with (yields l).
  by rewrite yields_app, yields_map_Yielded, app_nil_r.
Qed.

Lemma pages_turn page :
  pages (Fetched page :: map Yielded (MagstarMeasurementResult.measurements page) ++ [Slept])
  = [page].
Proof.
  change (pages (Fetched page :: ?l)) with (page :: pages l).
  by rewrite pages_app, pages_map_Yielded.
Qed.

Lemma raised_turn page :
  raised (Fetched page :: map Yielded (MagstarMeasurementResult.measurements page) ++ [Slept])
  = [].
Proof.
  change (raised (Fetched page :: ?l)) with (raised l).
  by rewrite raised_app, raised_map_Yielded.
Qed.

Lemma need_measurements_advance f page :
  need_measurements (advance f page) = MagstarMeasurementResult.has_further_data page.
Proof.
  unfold advance.
  destruct (py_truthy (MagstarMeasurementResult.has_further_data page)); cbn;
    [ by destruct (reverse_order f) | done ].
Qed.

Lemma station_id_advance f page : station_id (advance f page) = station_id f.
Proof.
  unfold advance.
  destruct (py_truthy (MagstarMeasurementResult.has_further_data page)); cbn;
    [ by destruct (reverse_order f) | done ].
Qed.

Lemma reverse_order_advance f page : reverse_order (advance f page) = reverse_order f.
Proof.
  unfold advance.
  destruct (py_truthy (MagstarMeasurementResult.has_further_data page)); cbn;
    [ by destruct (reverse_order f) | done ].
Qed.

(** C1.  Let the page source answer the first three requests with pages
    [p1], [p2], [p3], the first two reporting further data and the third
    not; let the station id pass the integer check and [time.sleep] accept
    the clamped delay.  Then a consumer that iterates to the end is handed
    exactly the measurements of [p1], [p2], [p3] in that order; the pages
    fetched are those three and the session has served exactly three
    requests; nothing is raised and the generator is finished.  Any fuel
    from eight steps plus one per measurement suffices. *)
Theorem three_pages_then_stop
    (env : environment) (self : MagstarV1API)
    (sid after_ts before_ts : pyval) (rev : bool)
    (delay d : pyval) (w0 : world)
    (p1 p2 p3 : MagstarMeasurementResult.t) :
  isinstance sid cls_int = true ->
  py_max delay float_0_1 = Returns d ->
  (forall tr, time_sleep env (w0 ++ tr) d = Returns tt) ->
  nth_page_is env w0 0 p1 ->
  nth_page_is env w0 1 p2 ->
  nth_page_is env w0 2 p3 ->
  py_truthy (MagstarMeasurementResult.has_further_data p1) = true ->
  py_truthy (MagstarMeasurementResult.has_further_data p2) = true ->
  py_truthy (MagstarMeasurementResult.has_further_data p3) = false ->
  forall fuel : nat,
    (length (MagstarMeasurementResult.measurements p1)
     + length (MagstarMeasurementResult.measurements p2)
     + length (MagstarMeasurementResult.measurements p3) + 8 <= fuel)%nat ->
    exists labs w,
      exhaust env self fuel
        (iterate_station_measurements sid after_ts before_ts rev delay)
        w0 = Some (labs, Finished, w)
      /\ yields labs = MagstarMeasurementResult.measurements p1
                       ++ MagstarMeasurementResult.measurements p2
                       ++ MagstarMeasurementResult.measurements p3
      /\ pages labs = [p1; p2; p3]
      /\ raised labs = []
      /\ length (gets w) = (length (gets w0) + 3)%nat.
Proof.
  intros Hint Hmax Hsleep Hp1 Hp2 Hp3 Hmore1 Hmore2 Hmore3 fuel Hfuel.
  set (f0 := {| station_id := sid; reverse_order := rev; poll_delay := d;
                need_measurements := PBool true;
                next_after_ts := after_ts; next_before_ts := before_ts |}).
  set (f1 := advance f0 p1). set (f2 := advance f1 p2). set (f3 := advance f2 p3).
  set (rq1 := measurements_request self (station_id f0) (next_after_ts f0)
                (next_before_ts f0) (PInt 2500) (reverse_order f0)).
  set (rq2 := measurements_request self (station_id f1) (next_after_ts f1)
                (next_before_ts f1) (PInt 2500) (reverse_order f1)).
  set (rq3 := measurements_request self (station_id f2) (next_after_ts f2)
                (next_before_ts f2) (PInt 2500) (reverse_order f2)).
  set (n1 := (1 + length (MagstarMeasurementResult.measurements p1) + 1)%nat).
  set (n2 := (1 + length (MagstarMeasurementResult.measurements p2) + 1)%nat).
  set (n3 := (1 + length (MagstarMeasurementResult.measurements p3) + 1)%nat).
  set (turn := fun p => Fetched p
                 :: map Yielded (MagstarMeasurementResult.measurements p) ++ [Slept]).
  assert (exec env self n1 (AtWhile f0) w0
          = (turn p1, AtWhile f1, w0 ++ [EvGet rq1; EvSleep d])) as Hturn1.
  { apply (exec_loop_turn env self f0 w0 p1); [ done | done | | ].
    - rewrite <- (app_nil_r w0). by apply Hp1.
    - apply Hsleep. }
  assert (exec env self n2 (AtWhile f1) (w0 ++ [EvGet rq1; EvSleep d])
          = (turn p2, AtWhile f2,
             (w0 ++ [EvGet rq1; EvSleep d]) ++ [EvGet rq2; EvSleep d])) as Hturn2.
  { assert (poll_delay f1 = d) as Hd by apply poll_delay_advance.
    rewrite <- Hd at 3.
    apply (exec_loop_turn env self f1 _ p2).
    - unfold f1. by rewrite need_measurements_advance.
    - unfold f1. by rewrite station_id_advance.
    - by apply Hp2.
    - rewrite <- app_assoc, Hd. apply Hsleep. }
  assert (exec env self n3 (AtWhile f2)
            ((w0 ++ [EvGet rq1; EvSleep d]) ++ [EvGet rq2; EvSleep d])
          = (turn p3, AtWhile f3,
             ((w0 ++ [EvGet rq1; EvSleep d]) ++ [EvGet rq2; EvSleep d])
               ++ [EvGet rq3; EvSleep d])) as Hturn3.
  { assert (poll_delay f2 = d) as Hd
      by (unfold f2, f1; by rewrite !poll_delay_advance).
    rewrite <- Hd at 5.
    apply (exec_loop_turn env self f2 _ p3).
    - unfold f2. by rewrite need_measurements_advance.
    - unfold f2, f1. by rewrite !station_id_advance.
    - rewrite <- app_assoc. by apply Hp3.
    - rewrite <- !app_assoc, Hd. apply Hsleep. }
  set (w3 := ((w0 ++ [EvGet rq1; EvSleep d]) ++ [EvGet rq2; EvSleep d])
               ++ [EvGet rq3; EvSleep d]) in *.
  assert (exec env self (1 + (n1 + (n2 + n3)))
            (iterate_station_measurements sid after_ts before_ts rev delay) w0
          = (Tau :: turn p1 ++ turn p2 ++ turn p3, AtWhile f3, w3)) as Hrun.
  { cbn [Nat.add exec step iterate_station_measurements]. rewrite Hmax. fold f0.
    rewrite exec_app, Hturn1. cbv beta iota.
    rewrite exec_app, Hturn2. cbv beta iota.
    by rewrite Hturn3. }
  assert (existsb ends_iteration (Tau :: turn p1 ++ turn p2 ++ turn p3) = false) as Hgo.
  { cbn [existsb ends_iteration orb]. unfold turn.
    by rewrite !existsb_app, !existsb_ends_iteration_turn. }
  assert (exhaust env self 1 (AtWhile f3) w3 = Some ([Stopped], Finished, w3)) as Hstop.
  { cbn. unfold f3. by rewrite need_measurements_advance, Hmore3. }
  exists ((Tau :: turn p1 ++ turn p2 ++ turn p3) ++ [Stopped]), w3.
  split.
  - replace fuel with (((1 + (n1 + (n2 + n3))) + 1) + (fuel - ((1 + (n1 + (n2 + n3))) + 1)))%nat
      by (unfold n1, n2, n3; lia).
    apply exhaust_more_fuel.
    by rewrite (exhaust_after_exec env self _ 1 _ _ _ _ _ Hrun Hgo), Hstop.
  - unfold turn. rewrite yields_app, pages_app, raised_app.
    change (yields (Tau :: ?l)) with (yields l).
    change (pages (Tau :: ?l)) with (pages l).
    change (raised (Tau :: ?l)) with (raised l).
    rewrite !yields_app, !pages_app, !raised_app,
      !yields_turn, !pages_turn, !raised_turn.
    cbn [yields pages raised omap app]. rewrite !app_nil_r.
    repeat split; try done.
    unfold w3. rewrite !gets_app, !length_app. cbn. lia.
Qed.

(** ** The cursor *)

Lemma advance_cursor_more f page :
  py_truthy (MagstarMeasurementResult.has_further_data page) = true ->
  next_after_ts (advance f page)
    = (if reverse_order f then next_after_ts f else MagstarMeasurementResult.next_ts page)
  /\ next_before_ts (advance f page)
    = (if reverse_order f then MagstarMeasurementResult.next_ts page else next_before_ts f).
Proof. intros Hmore. unfold advance. rewrite Hmore. by destruct (reverse_order f). Qed.

(** C2.  Run [iterate_station_measurements sid after0 before0 rev delay]
    for any number of steps.  (1) Whatever frame the generator then has,
    the bound opposite to the direction of travel is the caller's:
    [next_before_ts = before0] going forward, [next_after_ts = after0] in
    reverse.  (2) If the generator stands at the end of a page that reports
    further data with cursor [next_ts], and the pause returns, the next two
    steps are the pause and a page request for the same station with limit
    2500 whose [after_ts] is [next_ts] and whose [before_ts] is [before0]
    going forward, and whose [before_ts] is [next_ts] and whose [after_ts]
    is [after0] in reverse. *)
Theorem cursor_advances_on_one_side
    (env : environment) (self : MagstarV1API)
    (sid after0 before0 : pyval) (rev : bool) (delay : pyval) (w0 : world)
    (n : nat) (labs : list label) (g : generator) (w : world) :
  exec env self n (iterate_station_measurements sid after0 before0 rev delay) w0
    = (labs, g, w) ->
  (forall f, frame_of g = Some f ->
     if rev then next_after_ts f = after0 else next_before_ts f = before0)
  /\ (forall f page,
        g = InFor f page [] ->
        py_truthy (MagstarMeasurementResult.has_further_data page) = true ->
        time_sleep env w (poll_delay f) = Returns tt ->
        exists lab g',
          exec env self 2 g w =
            ([Slept; lab], g',
             w ++ [EvSleep (poll_delay f);
                   EvGet (measurements_request self sid
                            (if rev then after0 else MagstarMeasurementResult.next_ts page)
                            (if rev then MagstarMeasurementResult.next_ts page else before0)
                            (PInt 2500) rev)])).
Proof.
  intros Hrun. apply run_invariant_reachable in Hrun as (tr & -> & Hg). split.
  - intros f Hf. destruct g; cbn in Hf; try discriminate; injection Hf as ->.
    + by destruct Hg as ((_ & _ & _ & ?) & _).
    + by destruct Hg as ((_ & _ & _ & ?) & _).
  - intros f page -> Hmore Hsleep.
    destruct Hg as ((Hsid & Hrev & _ & Hbound) & Hint & _).
    destruct (advance_cursor_more f page Hmore) as [Hafter Hbefore].
    cbn [exec step]. unfold sleep. rewrite poll_delay_advance, Hsleep.
    cbn [exec step]. rewrite need_measurements_advance, Hmore.
    rewrite get_station_measurements_by_id_sends
      by (by rewrite station_id_advance, Hsid).
    rewrite station_id_advance, reverse_order_advance, Hafter, Hbefore, Hsid, Hrev.
    rewrite <- !app_assoc. cbn [app].
    destruct rev; cbv beta iota in Hbound |- *; rewrite Hbound;
      destruct (decode_page _) as [next_page | e]; eexists _, _; reflexivity.
Qed.

(** ** Failures *)

Lemma yields_repeat_Stopped k : yields (repeat Stopped k) = [].
Proof. induction k as [ | k IH ]; by cbn. Qed.

(** C4.  Let the generator have reached the loop test, with labels [labs]
    so far, at a moment when another page is needed and the page fetch
    raises [e].  Then the [next] call that triggered the fetch raises [e]
    and leaves the generator finished; every later [next] merely reports
    exhaustion and touches nothing, so the fetch is not tried again; the
    failed fetch itself sent at most one request; and the consumer holds
    exactly the measurements it had been handed before. *)
Theorem fetch_error_propagates
    (env : environment) (self : MagstarV1API)
    (g0 : generator) (w0 : world) (n : nat) (labs : list label)
    (f : frame) (w : world) (e : exn) (w1 : world) :
  exec env self n g0 w0 = (labs, AtWhile f, w) ->
  py_truthy (need_measurements f) = true ->
  get_station_measurements_by_id env self (station_id f) (next_after_ts f)
    (next_before_ts f) (PInt 2500) (reverse_order f) w = (Raises e, w1) ->
  (forall fuel, gen_next env self (S fuel) (AtWhile f) w = Some ([Raised e], Finished, w1))
  /\ (forall k, exec env self (n + S k) g0 w0
                = (labs ++ Raised e :: repeat Stopped k, Finished, w1))
  /\ (forall k, yields (labs ++ Raised e :: repeat Stopped k) = yields labs)
  /\ (w1 = w \/ exists rq, w1 = w ++ [EvGet rq]).
Proof.
  intros Hrun Hneed Hfetch. repeat split.
  - intros fuel. cbn. by rewrite Hneed, Hfetch.
  - intros k. rewrite exec_app, Hrun. cbn. by rewrite Hneed, Hfetch, exec_Finished.
  - intros k. rewrite yields_app. cbn. by rewrite yields_repeat_Stopped, app_nil_r.
  - pose proof (get_station_measurements_by_id_world env self (station_id f)
                  (next_after_ts f) (next_before_ts f) (PInt 2500)
                  (reverse_order f) w) as Hworld.
    rewrite Hfetch in Hworld. cbn in Hworld. destruct Hworld; eauto.
Qed.

(** ** The pause between pages *)

(** [float_0_1] is a valid double, within half a unit in the last place of
    one tenth. *)
Lemma float_0_1_is_nearest :
  valid_binary 53 1024 float_0_1 = true
  /\ exists m, float_0_1 = S754_finite false m (-56)
               /\ Z.abs (10 * Z.pos m - 2 ^ 56) <= 5.
Proof. split; [ reflexivity | eexists; split; [ reflexivity | by vm_compute ] ]. Qed.

Lemma py_max_of_zero : py_max (PInt 0) float_0_1 = Returns (PFloat float_0_1).
Proof. reflexivity. Qed.

Lemma float_compare_unordered (v : pyval) :
  float_compare float_0_1 v = Returns None -> v = PFloat S754_nan.
Proof.
  destruct v as [ | b | n | x | | | ]; cbn; try discriminate.
  intros [= H]. by destruct x as [ | [] | | [] ].
Qed.

(** Unless it is NaN, what [max(poll_delay, 0.1)] returns is at least
    0.1. *)
Lemma py_max_at_least (delay d : pyval) :
  py_max delay float_0_1 = Returns d ->
  d <> PFloat S754_nan ->
  float_le float_0_1 d = Returns true.
Proof.
  unfold py_max, float_gt, float_le. intros Hmax Hnan.
  destruct (float_compare float_0_1 delay) as [c | e] eqn:Hcmp; cbn in Hmax;
    [ | discriminate ].
  destruct c as [[ | | ] | ]; injection Hmax as <-; try by rewrite ?Hcmp.
  by apply float_compare_unordered in Hcmp.
Qed.

(** C7.  Run the iterator for any number of steps and look at what it did
    to the world.  If [max(poll_delay, 0.1)] is defined, with value [d],
    requests and pauses alternate, starting with a request, and every pause
    is [time.sleep(d)]: between two successive page requests there is
    exactly one pause, of [d] seconds.  If it is not defined (the delay is
    not a number) nothing was requested at all.  For [poll_delay = 0] the
    pause is 0.1 seconds, and for every delay other than NaN it is at
    least 0.1 seconds. *)
Theorem pause_is_clamped_poll_delay
    (env : environment) (self : MagstarV1API)
    (sid after0 before0 : pyval) (rev : bool) (delay : pyval) (w0 : world)
    (n : nat) (labs : list label) (g : generator) (w : world) :
  exec env self n (iterate_station_measurements sid after0 before0 rev delay) w0
    = (labs, g, w) ->
  (exists tr,
      w = w0 ++ tr
      /\ (forall d, py_max delay float_0_1 = Returns d -> exists b, paced d true tr b)
      /\ (forall e, py_max delay float_0_1 = Raises e -> tr = []))
  /\ py_max (PInt 0) float_0_1 = Returns (PFloat float_0_1)
  /\ (forall d, py_max delay float_0_1 = Returns d ->
        d <> PFloat S754_nan -> float_le float_0_1 d = Returns true).
Proof.
  intros Hrun. split; [ | split; [ reflexivity | apply py_max_at_least ] ].
  apply run_invariant_reachable in Hrun as (tr & -> & Hg).
  exists tr. split; [ done | ].
  destruct g as [ ? ? ? ? ? | f | f page rest | ].
  - destruct Hg as (_ & _ & _ & _ & _ & _ & ->). split; [ | done ].
    intros d _. exists true. constructor.
  - destruct Hg as ((_ & _ & Hmax & _) & _ & Hpaced). rewrite Hmax. split.
    + intros d [= <-]. by exists true.
    + intros e [=].
  - destruct Hg as ((_ & _ & Hmax & _) & _ & Hpaced & _). rewrite Hmax. split.
    + intros d [= <-]. by exists false.
    + intros e [=].
  - by destruct Hg as (_ & ? & ?).
Qed.

(** ** Laziness *)

(** C8, as the code has it.  (1) However many elements the consumer asks
    for, whenever the generator does anything other than yield -- fetch a
    page, pause, stop, raise -- every page fetched so far has been handed
    over in full: page [k+1] is fetched only after all measurements of
    pages [1..k] were yielded.  (2) If the first page arrives with at least
    one measurement, a consumer that asks for one element receives the
    first measurement of that page, and exactly one request has been sent
    when it stops.  (3) At any loop test, if the page that arrives holds no
    measurement yet reports further data, and the pause after it returns,
    the same [next] goes on to fetch the next page, with the cursor that
    page left: it raises if that fetch raises, and otherwise continues
    with the page fetched. *)
Theorem pages_are_fetched_on_demand
    (env : environment) (self : MagstarV1API)
    (sid after0 before0 : pyval) (rev : bool) (delay : pyval) (w0 : world) :
  (forall fuel k labs g w,
      gen_take env self fuel k
        (iterate_station_measurements sid after0 before0 rev delay) w0
        = Some (labs, g, w) ->
      forall earlier lab later,
        labs = earlier ++ lab :: later ->
        (forall m, lab <> Yielded m) ->
        fully_delivered earlier)
  /\ (forall d page w1 m rest,
        py_max delay float_0_1 = Returns d ->
        get_station_measurements_by_id env self sid after0 before0 (PInt 2500) rev w0
          = (Returns page, w1) ->
        MagstarMeasurementResult.measurements page = m :: rest ->
        forall fuel, (3 <= fuel)%nat ->
          exists g,
            gen_take env self fuel 1
              (iterate_station_measurements sid after0 before0 rev delay) w0
              = Some ([Tau; Fetched page; Yielded m], g, w1)
            /\ gets w1
               = gets w0 ++ [measurements_request self sid after0 before0 (PInt 2500) rev])
  /\ (forall f w page w1,
        py_truthy (need_measurements f) = true ->
        get_station_measurements_by_id env self (station_id f) (next_after_ts f)
          (next_before_ts f) (PInt 2500) (reverse_order f) w = (Returns page, w1) ->
        MagstarMeasurementResult.measurements page = [] ->
        py_truthy (MagstarMeasurementResult.has_further_data page) = true ->
        time_sleep env w1 (poll_delay f) = Returns tt ->
        forall fuel,
          gen_next env self (S (S (S fuel))) (AtWhile f) w =
            match get_station_measurements_by_id env self (station_id f)
                    (if reverse_order f then next_after_ts f
                     else MagstarMeasurementResult.next_ts page)
                    (if reverse_order f then MagstarMeasurementResult.next_ts page
                     else next_before_ts f)
                    (PInt 2500) (reverse_order f) (w1 ++ [EvSleep (poll_delay f)]) with
            | (Raises e, w2) => Some ([Fetched page; Slept; Raised e], Finished, w2)
            | (Returns page2, w2) =>
                match gen_next env self fuel
                        (InFor (advance f page) page2
                           (MagstarMeasurementResult.measurements page2)) w2 with
                | Some (labs, g, w3) =>
                    Some (Fetched page :: Slept :: Fetched page2 :: labs, g, w3)
                | None => None
                end
            end).
Proof.
  split; [ | split ].
  - intros fuel k labs g w Htake earlier lab later -> Hlab.
    apply gen_take_exec in Htake as [n Hrun].
    apply exec_split in Hrun as (g1 & w1 & Hrun1 & Hrun2).
    cbn in Hrun2. destruct (step env self g1 w1) as [[lab' g2] w2] eqn:Hstep.
    destruct (exec env self (length later) g2 w2) as [[? ?] ?].
    injection Hrun2 as -> _ _ _.
    eapply not_yielding_fully_delivered; [ | done | done ].
    by eapply run_invariant_reachable.
  - intros d page w1 m rest Hmax Hfetch Hmeas fuel Hfuel.
    destruct fuel as [ | [ | [ | fuel ] ] ]; try lia.
    cbn. rewrite Hmax. cbn. rewrite Hfetch. cbn. rewrite Hmeas. cbn.
    eexists. split; [ reflexivity | ].
    apply get_station_measurements_by_id_returns in Hfetch as Hint.
    rewrite get_station_measurements_by_id_sends in Hfetch by done.
    injection Hfetch as _ <-. by rewrite gets_app.
  - intros f w page w1 Hneed Hfetch Hmeas Hmore Hsleep fuel.
    destruct (advance_cursor_more f page Hmore) as [Hafter Hbefore].
    cbn [gen_next step]. rewrite Hneed, Hfetch. cbn [hands_back]. rewrite Hmeas.
    cbn [gen_next step]. unfold sleep. rewrite poll_delay_advance, Hsleep.
    cbn [hands_back gen_next step]. rewrite need_measurements_advance, Hmore.
    rewrite station_id_advance, reverse_order_advance, Hafter, Hbefore.
    destruct (get_station_measurements_by_id env self (station_id f)
                (if reverse_order f then next_after_ts f
                 else MagstarMeasurementResult.next_ts page)
                (if reverse_order f then MagstarMeasurementResult.next_ts page
                 else next_before_ts f)
                (PInt 2500) (reverse_order f) (w1 ++ [EvSleep (poll_delay f)]))
      as [[page2 | e] w2]; cbn [hands_back]; [ | reflexivity ].
    by destruct (gen_next env self fuel _ w2) as [[[labs g] w3] | ].
Qed.

(** C8, as stated, fails when the first page is empty yet reports further
    data: the consumer asks for a single element, receives the first
    measurement ever yielded, stops -- and two pages have been fetched by
    two requests. *)
Lemma second_fetch_before_first_measurement :
  exists labs g w m,
    gen_take Sample.empty_first_page Sample.client 5 1
      (iterate_station_measurements (PInt 7) PNone PNone false (PFloat float_0_1)) []
      = Some (labs, g, w)
    /\ yields labs = [m]
    /\ length (pages labs) = 2%nat
    /\ length (gets w) = 2%nat.
Proof. eexists _, _, _, _. by vm_compute. Qed.

(** * Further properties of the client *)

(** ** Comprehensions *)

Lemma comprehension_returns {A B} (f : A -> result B) (xs : list A) (ys : list B) :
  comprehension f xs = Returns ys <-> Forall2 (fun x y => f x = Returns y) xs ys.
Proof.
  revert ys. induction xs as [ | x xs IH ]; intros ys; cbn.
  - split; [ intros [= <-]; constructor | by inversion 1 ].
  - destruct (f x) as [y | e] eqn:Hx; cbn.
    + destruct (comprehension f xs) as [ys' | e] eqn:Hxs; cbn.
      * split.
        -- intros [= <-]. constructor; [ done | by apply IH ].
        -- inversion 1 as [ | ? y' ? ys'' Hy Hrest ]; subst.
           rewrite Hx in Hy. injection Hy as <-.
           apply IH in Hrest. by injection Hrest as <-.
      * split; [ done | ].
        inversion 1 as [ | ? y' ? ys'' Hy Hrest ]; subst. by apply IH in Hrest.
    + split; [ done | ]. inversion 1 as [ | ? y' ? ys'' Hy Hrest ]; subst.
      rewrite Hx in Hy. discriminate.
Qed.

Lemma comprehension_raises {A B} (f : A -> result B) (good : list A) (bad : A)
    (rest : list A) (e : exn) :
  Forall (fun x => exists y, f x = Returns y) good ->
  f bad = Raises e ->
  comprehension f (good ++ bad :: rest) = Raises e.
Proof.
  intros Hgood Hbad. induction Hgood as [ | x good [y Hy] _ IH ]; cbn.
  - by rewrite Hbad.
  - by rewrite Hy, IH.
Qed.

(** ** Decoding records *)

Ltac read_fields kvs :=
  repeat match goal with
         | |- context [py_lookup kvs ?key] =>
             destruct (py_lookup kvs key) eqn:?; cbn; [ | reflexivity ]
         end.

(** X1.  Building a record from a JSON object reads the fields in a fixed
    order and raises [KeyError] for the first one that is missing; when
    none is missing a record is returned.  Anything that is not an object
    is a [TypeError].  This holds for station details, station summaries
    and measurements alike. *)
Theorem from_api_reports_first_missing_key :
  (forall kvs,
      match first_missing kvs detail_fields with
      | Some key => MagstarStationExtendedData.from_api (PDict kvs) = Raises (KeyError key)
      | None => exists d, MagstarStationExtendedData.from_api (PDict kvs) = Returns d
      end)
  /\ (forall kvs,
        match first_missing kvs summary_fields with
        | Some key => MagstarStationData.from_api (PDict kvs) = Raises (KeyError key)
        | None => exists s, MagstarStationData.from_api (PDict kvs) = Returns s
        end)
  /\ (forall kvs,
        match first_missing kvs measurement_fields with
        | Some key => MagstarMeasurement.from_api (PDict kvs) = Raises (KeyError key)
        | None => exists m, MagstarMeasurement.from_api (PDict kvs) = Returns m
        end)
  /\ (forall raw, type_of raw <> cls_dict ->
        MagstarStationExtendedData.from_api raw = Raises TypeError
        /\ MagstarStationData.from_api raw = Raises TypeError
        /\ MagstarMeasurement.from_api raw = Raises TypeError
        /\ MagstarMeasurementResult.from_api raw = Raises TypeError).
Proof.
  split; [ | split; [ | split ] ].
  - intros kvs. unfold MagstarStationExtendedData.from_api, getitem, detail_fields.
    cbn [first_missing]. read_fields kvs. by eexists.
  - intros kvs. unfold MagstarStationData.from_api, getitem, summary_fields.
    cbn [first_missing]. read_fields kvs. by eexists.
  - intros kvs. unfold MagstarMeasurement.from_api, getitem, measurement_fields.
    cbn [first_missing]. read_fields kvs. by eexists.
  - intros raw Hraw. by destruct raw.
Qed.

(** X2.  A record depends on nothing but the fields it reads: two objects
    that agree on those keys give the same outcome, so unknown keys and the
    order of keys in the object do not matter. *)
Theorem from_api_reads_only_its_fields (kvs kvs' : list (string * pyval)) :
  (Forall (fun key => py_lookup kvs key = py_lookup kvs' key) detail_fields ->
   MagstarStationExtendedData.from_api (PDict kvs)
   = MagstarStationExtendedData.from_api (PDict kvs'))
  /\ (Forall (fun key => py_lookup kvs key = py_lookup kvs' key) summary_fields ->
      MagstarStationData.from_api (PDict kvs)
      = MagstarStationData.from_api (PDict kvs'))
  /\ (Forall (fun key => py_lookup kvs key = py_lookup kvs' key) measurement_fields ->
      MagstarMeasurement.from_api (PDict kvs)
      = MagstarMeasurement.from_api (PDict kvs')).
Proof.
  repeat split; intros Hall;
    unfold detail_fields, summary_fields, measurement_fields in Hall;
    repeat match type of Hall with
           | Forall _ (_ :: _) => apply Forall_cons in Hall as [? Hall]
           end;
    unfold MagstarStationExtendedData.from_api, MagstarStationData.from_api,
      MagstarMeasurement.from_api, getitem;
    repeat match goal with
           | H : py_lookup kvs _ = py_lookup kvs' _ |- _ => rewrite H; clear H
           end;
    reflexivity.
Qed.

(** X3.  A page is decoded all or nothing.  When [measurements] is a JSON
    array, the page returned has one measurement per element, each the
    record of the element at the same position, together with the object's
    [has_further_data] and [next_ts]; and if some element fails to decode
    while those before it decode, the whole page fails with that element's
    error, whatever follows it. *)
Theorem page_from_api_all_or_nothing
    (kvs : list (string * pyval)) (items : list pyval) :
  py_lookup kvs "measurements" = Some (PList items) ->
  (forall page,
      MagstarMeasurementResult.from_api (PDict kvs) = Returns page
      <-> Forall2 (fun raw m => MagstarMeasurement.from_api raw = Returns m)
            items (MagstarMeasurementResult.measurements page)
          /\ py_lookup kvs "has_further_data"
             = Some (MagstarMeasurementResult.has_further_data page)
          /\ py_lookup kvs "next_ts" = Some (MagstarMeasurementResult.next_ts page))
  /\ (forall good bad rest e,
        items = good ++ bad :: rest ->
        Forall (fun raw => exists m, MagstarMeasurement.from_api raw = Returns m) good ->
        MagstarMeasurement.from_api bad = Raises e ->
        MagstarMeasurementResult.from_api (PDict kvs) = Raises e).
Proof.
  intros Hitems. unfold MagstarMeasurementResult.from_api, getitem.
  rewrite Hitems. cbn. split.
  - intros [ms more ts]. cbn.
    destruct (comprehension MagstarMeasurement.from_api items) as [ms' | e] eqn:Hms; cbn.
    + apply comprehension_returns in Hms.
      destruct (py_lookup kvs "has_further_data") as [more' | ]; cbn.
      * destruct (py_lookup kvs "next_ts") as [ts' | ]; cbn.
        -- split.
           ++ by intros [= <- <- <-].
           ++ intros (Hall & [= <-] & [= <-]). do 2 f_equal.
              apply comprehension_returns in Hms, Hall. congruence.
        -- split; [ done | by intros (_ & _ & ?) ].
      * split; [ done | by intros (_ & ? & _) ].
    + split; [ done | ]. intros (Hall & _).
      apply comprehension_returns in Hall. congruence.
  - intros good bad rest e -> Hgood Hbad.
    by rewrite (comprehension_raises _ good bad rest e Hgood Hbad).
Qed.

(** X4.  When [measurements] is not a JSON array, a page is returned
    exactly when it is the empty string or the empty object and the two
    other fields are present; the page then has no measurements and carries
    the object's [has_further_data] and [next_ts].  Every other value is
    refused: [null], numbers and booleans cannot be iterated, and a
    non-empty string or object iterates over things that are not
    measurement objects. *)
Theorem page_from_api_measurements_not_an_array
    (kvs : list (string * pyval)) (v : pyval) :
  py_lookup kvs "measurements" = Some v ->
  type_of v <> cls_list ->
  forall page,
    MagstarMeasurementResult.from_api (PDict kvs) = Returns page
    <-> (v = PStr "" \/ v = PDict [])
        /\ MagstarMeasurementResult.measurements page = []
        /\ py_lookup kvs "has_further_data"
           = Some (MagstarMeasurementResult.has_further_data page)
        /\ py_lookup kvs "next_ts" = Some (MagstarMeasurementResult.next_ts page).
Proof.
  intros Hv Htype [ms more ts]. unfold MagstarMeasurementResult.from_api, getitem.
  rewrite Hv. cbn.
  assert (forall r : result MagstarMeasurementResult.t,
             r = Raises TypeError ->
             (v = PStr "" \/ v = PDict [] -> False) ->
             r = Returns {| MagstarMeasurementResult.measurements := ms;
                            MagstarMeasurementResult.has_further_data := more;
                            MagstarMeasurementResult.next_ts := ts |}
             <-> (v = PStr "" \/ v = PDict []) /\ ms = []
                 /\ py_lookup kvs "has_further_data" = Some more
                 /\ py_lookup kvs "next_ts" = Some ts) as Hrefused.
  { intros r -> Hno. split; [ done | ]. by intros [? _]. }
  assert ((let? more' := match py_lookup kvs "has_further_data" with
                         | Some x => Returns x
                         | None => Raises (KeyError "has_further_data")
                         end in
           let? ts' := match py_lookup kvs "next_ts" with
                       | Some x => Returns x
                       | None => Raises (KeyError "next_ts")
                       end in
           Returns {| MagstarMeasurementResult.measurements := [];
                      MagstarMeasurementResult.has_further_data := more';
                      MagstarMeasurementResult.next_ts := ts' |})%result
          = Returns {| MagstarMeasurementResult.measurements := ms;
                       MagstarMeasurementResult.has_further_data := more;
                       MagstarMeasurementResult.next_ts := ts |}
          <-> ms = [] /\ py_lookup kvs "has_further_data" = Some more
              /\ py_lookup kvs "next_ts" = Some ts) as Haccepted.
  { destruct (py_lookup kvs "has_further_data") as [more' | ]; cbn.
    - destruct (py_lookup kvs "next_ts") as [ts' | ]; cbn.
      + split; [ by intros [= <- <- <-] | by intros (-> & [= <-] & [= <-]) ].
      + split; [ done | by intros (_ & _ & ?) ].
    - split; [ done | by intros (_ & ? & _) ]. }
  destruct v as [ | b | n | x | s | l | fields ]; cbn; try done.
  - apply Hrefused; [ done | by intros [? | ?] ].
  - apply Hrefused; [ done | by intros [? | ?] ].
  - apply Hrefused; [ done | by intros [? | ?] ].
  - apply Hrefused; [ done | by intros [? | ?] ].
  - destruct s as [ | c s ]; cbn.
    + rewrite Haccepted. split; [ by auto | by intros [_ ?] ].
    + apply Hrefused; [ done | by intros [? | ?] ].
  - destruct fields as [ | [k x] fields ]; cbn.
    + rewrite Haccepted. split; [ by auto | by intros [_ ?] ].
    + apply Hrefused; [ done | by intros [? | ?] ].
Qed.

(** ** The transport *)

Lemma checked_body_returns (resp : response) (v : pyval) :
  (let? _ := raise_for_status resp in json resp)%result = Returns v
  <-> (status_code resp < 400 \/ 600 <= status_code resp)
      /\ body_json resp = Some v.
Proof.
  unfold raise_for_status, json.
  destruct (400 <=? status_code resp) eqn:Hlo;
    destruct (status_code resp <? 600) eqn:Hhi; cbn;
    try apply Z.leb_le in Hlo; try apply Z.leb_gt in Hlo;
    try apply Z.ltb_lt in Hhi; try apply Z.ltb_ge in Hhi.
  - split; [ done | ]. intros [? _]. lia.
  - destruct (body_json resp) as [body | ]; split.
    + intros [= <-]. auto.
    + by intros [_ [= <-]].
    + done.
    + by intros [_ ?].
  - destruct (body_json resp) as [body | ]; split.
    + intros [= <-]. auto.
    + by intros [_ [= <-]].
    + done.
    + by intros [_ ?].
  - destruct (body_json resp) as [body | ]; split.
    + intros [= <-]. split; [ lia | done ].
    + by intros [_ [= <-]].
    + done.
    + by intros [_ ?].
Qed.

(** X5.  Every call of [_get] sends exactly one request, to the joined URL
    with the given query and with the API key and client identifier
    headers.  It returns a value exactly when the session returns a
    response whose status is outside 400..599 and whose body is JSON, and
    then the value is the decoded body; a status inside 400..599 raises
    [HTTPError] with that status whatever the body. *)
Theorem get_sends_once_and_checks_status
    (env : environment) (self : MagstarV1API)
    (sub_url : string) (params : option (gmap string pyval)) (w : world) :
  exists rq,
    snd (_get env self sub_url params w) = w ++ [EvGet rq]
    /\ req_url rq = urljoin (base_url self) sub_url
    /\ req_params rq = params
    /\ req_headers rq !! "X-API-Key" = Some (api_key self)
    /\ req_headers rq !! "User-Agent" = Some "MagstarV1API (0.1.0)"
    /\ (forall v,
          fst (_get env self sub_url params w) = Returns v
          <-> exists resp,
                session_get env w rq = Returns resp
                /\ (status_code resp < 400 \/ 600 <= status_code resp)
                /\ body_json resp = Some v)
    /\ (forall resp,
          session_get env w rq = Returns resp ->
          400 <= status_code resp < 600 ->
          fst (_get env self sub_url params w) = Raises (HTTPError (status_code resp))).
Proof.
  eexists. split; [ reflexivity | ]. split; [ reflexivity | ].
  split; [ reflexivity | ]. split; [ reflexivity | ]. split; [ reflexivity | ].
  unfold _get. cbn [fst].
  set (rq := {| req_url := _; req_params := _; req_headers := _ |}).
  split.
  - intros v. destruct (session_get env w rq) as [resp | e]; cbn.
    + rewrite checked_body_returns. split.
      * intros [? ?]. by exists resp.
      * by intros (resp' & [= <-] & ? & ?).
    + split; [ done | by intros (resp & ? & _) ].
  - intros resp Hresp [Hlo Hhi]. rewrite Hresp. cbn. unfold raise_for_status.
    apply Z.leb_le in Hlo. apply Z.ltb_lt in Hhi. by rewrite Hlo, Hhi.
Qed.

(** ** Station queries *)

(** X6.  When the server answers [/v1/stations] with a JSON array,
    [get_stations] returns a list exactly when every element decodes, and
    the list then has one summary per element, in the server's order; one
    request is sent either way. *)
Theorem get_stations_keeps_server_order
    (env : environment) (self : MagstarV1API) (w : world)
    (resp : response) (items : list pyval) :
  let rq := {| req_url := urljoin (base_url self) "/v1/stations";
               req_params := None;
               req_headers := headers self |} in
  session_get env w rq = Returns resp ->
  raise_for_status resp = Returns tt ->
  body_json resp = Some (PList items) ->
  snd (get_stations env self w) = w ++ [EvGet rq]
  /\ (forall stations,
        fst (get_stations env self w) = Returns stations
        <-> Forall2 (fun raw s => MagstarStationData.from_api raw = Returns s)
              items stations)
  /\ (forall stations,
        fst (get_stations env self w) = Returns stations ->
        length stations = length items).
Proof.
  intros rq Hresp Hstatus Hbody.
  assert (get_stations env self w
          = (comprehension MagstarStationData.from_api items, w ++ [EvGet rq])) as ->.
  { unfold get_stations, bind, _get, lift. fold rq. rewrite Hresp. cbn.
    rewrite Hstatus. cbn. unfold json. rewrite Hbody. cbn.
    by destruct (comprehension MagstarStationData.from_api items). }
  cbn [fst snd]. split; [ done | ]. split.
  - intros stations. apply comprehension_returns.
  - intros stations Hs. apply comprehension_returns in Hs.
    symmetry. by eapply Forall2_length.
Qed.

(** X7.  The outcome of [get_station_details_by_id].  It returns a
    record exactly when the station id passes the integer check, the
    session answers the request for that station with a status outside
    400..599, and the body is a JSON value from which the record can be
    built.  For an id that passes the check, every other case raises the
    error of the step that failed: the session's own error; [HTTPError]
    with the status when it is inside 400..599 (an absent station, answered
    with 404, is [HTTPError 404]); [JSONDecodeError] for a body that is not
    JSON; the error of [from_api] for a body it cannot use. *)
Theorem get_station_details_returns_iff
    (env : environment) (self : MagstarV1API) (station_id : pyval) (w : world) :
  (forall d,
      fst (get_station_details_by_id env self station_id w) = Returns d
      <-> isinstance station_id cls_int = true
          /\ exists resp raw,
               session_get env w (details_request self station_id) = Returns resp
               /\ (status_code resp < 400 \/ 600 <= status_code resp)
               /\ body_json resp = Some raw
               /\ MagstarStationExtendedData.from_api raw = Returns d)
  /\ (isinstance station_id cls_int = true ->
      (forall e,
          session_get env w (details_request self station_id) = Raises e ->
          fst (get_station_details_by_id env self station_id w) = Raises e)
      /\ (forall resp,
            session_get env w (details_request self station_id) = Returns resp ->
            400 <= status_code resp < 600 ->
            fst (get_station_details_by_id env self station_id w)
            = Raises (HTTPError (status_code resp)))
      /\ (forall resp,
            session_get env w (details_request self station_id) = Returns resp ->
            status_code resp < 400 \/ 600 <= status_code resp ->
            body_json resp = None ->
            fst (get_station_details_by_id env self station_id w)
            = Raises JSONDecodeError)
      /\ (forall resp raw e,
            session_get env w (details_request self station_id) = Returns resp ->
            status_code resp < 400 \/ 600 <= status_code resp ->
            body_json resp = Some raw ->
            MagstarStationExtendedData.from_api raw = Raises e ->
            fst (get_station_details_by_id env self station_id w) = Raises e)).
Proof.
  split.
  { intros d.
  destruct (isinstance station_id cls_int) eqn:Hint.
  - rewrite get_station_details_by_id_sends by done. cbn [fst].
    unfold decode_details.
    destruct (session_get env w _) as [resp | e]; cbn.
    + destruct (let? _ := raise_for_status resp in json resp)%result
        as [raw | e] eqn:Hraw.
      * apply checked_body_returns in Hraw as Hok. destruct Hok as [Hstatus Hbody].
        assert ((let? _ := raise_for_status resp in
                 let? raw := json resp in
                 MagstarStationExtendedData.from_api raw)%result
                = MagstarStationExtendedData.from_api raw) as ->.
        { destruct (raise_for_status resp); cbn in *; [ | discriminate ].
          by rewrite Hraw. }
        split.
        -- intros Hd. split; [ done | ]. by exists resp, raw.
        -- intros (_ & resp' & raw' & [= <-] & _ & Hbody' & Hd). congruence.
      * assert ((let? _ := raise_for_status resp in
                 let? raw := json resp in
                 MagstarStationExtendedData.from_api raw)%result
                = Raises e) as ->.
        { destruct (raise_for_status resp) as [ [] | e' ]; cbn in *.
          - by rewrite Hraw.
          - congruence. }
        split; [ done | ].
        intros (_ & resp' & raw' & [= <-] & Hstatus & Hbody' & _).
        assert ((let? _ := raise_for_status resp in json resp)%result = Returns raw')
          as Hok by by apply checked_body_returns.
        congruence.
    + split; [ done | by intros (_ & resp & raw & ? & _) ].
  - unfold get_station_details_by_id, bind. rewrite Hint. cbn.
    split; [ done | by intros [? _] ].
}
  intros Hint. rewrite get_station_details_by_id_sends by done. cbn [fst].
  unfold decode_details.
  assert (forall resp,
             status_code resp < 400 \/ 600 <= status_code resp ->
             raise_for_status resp = Returns tt) as Hok.
  { intros resp Hstatus. unfold raise_for_status.
    destruct (400 <=? status_code resp) eqn:Hlo;
      destruct (status_code resp <? 600) eqn:Hhi; cbn; try done.
    apply Z.leb_le in Hlo. apply Z.ltb_lt in Hhi. lia. }
  split; [ | split; [ | split ] ].
  - intros e ->. reflexivity.
  - intros resp -> [Hlo Hhi]. cbn. unfold raise_for_status.
    apply Z.leb_le in Hlo. apply Z.ltb_lt in Hhi. by rewrite Hlo, Hhi.
  - intros resp -> Hstatus Hbody. cbn. rewrite (Hok resp Hstatus). cbn.
    unfold json. by rewrite Hbody.
  - intros resp raw e -> Hstatus Hbody Hraw. cbn. rewrite (Hok resp Hstatus). cbn.
    unfold json. by rewrite Hbody.
Qed.

(** ** Whole runs of the iterator *)

Lemma sleeps_app tr1 tr2 : sleeps (tr1 ++ tr2) = sleeps tr1 ++ sleeps tr2.
Proof. apply omap_app. Qed.

Lemma length_turn_labels page :
  length (turn_labels page)
  = (1 + length (MagstarMeasurementResult.measurements page) + 1)%nat.
Proof. unfold turn_labels. cbn. by rewrite length_app, length_map. Qed.

Lemma yields_script_labels ps :
  yields (script_labels ps) = concat (map MagstarMeasurementResult.measurements ps).
Proof.
  induction ps as [ | page ps IH ]; [ done | ].
  unfold script_labels in *. cbn [map concat].
  rewrite yields_app, IH. unfold turn_labels. by rewrite yields_turn.
Qed.

Lemma pages_script_labels ps : pages (script_labels ps) = ps.
Proof.
  induction ps as [ | page ps IH ]; [ done | ].
  unfold script_labels in *. cbn [map concat].
  rewrite pages_app, IH. unfold turn_labels. by rewrite pages_turn.
Qed.

Lemma existsb_ends_iteration_script ps :
  existsb ends_iteration (script_labels ps) = false.
Proof.
  induction ps as [ | page ps IH ]; [ done | ].
  unfold script_labels in *. cbn [map concat].
  rewrite existsb_app, IH. unfold turn_labels. by rewrite existsb_ends_iteration_turn.
Qed.

Lemma py_max_number (delay : pyval) :
  is_number delay = true -> exists d, py_max delay float_0_1 = Returns d.
Proof.
  unfold py_max, float_gt. destruct delay; cbn; try discriminate; intros _; by eexists.
Qed.

Lemma py_max_not_number (delay : pyval) :
  is_number delay = false -> py_max delay float_0_1 = Raises TypeError.
Proof. by destruct delay. Qed.

Section Scripts.
Context (env : environment) (self : MagstarV1API) (w0 : world).

(** A script served from the loop test on: the pages are fetched one after
    the other, each with the cursor the previous one left. *)
Lemma exec_script ps :
  forall f tr,
    ends_with_last_page ps ->
    py_truthy (need_measurements f) = true ->
    isinstance (station_id f) cls_int = true ->
    (forall tr', time_sleep env (w0 ++ tr') (poll_delay f) = Returns tt) ->
    (forall j page, nth_error ps j = Some page ->
                    nth_page_is env w0 (length (gets tr) + j) page) ->
    exists f' tr',
      exec env self (length (script_labels ps)) (AtWhile f) (w0 ++ tr)
      = (script_labels ps, AtWhile f', w0 ++ tr ++ tr')
      /\ py_truthy (need_measurements f') = false
      /\ gets tr' = script_requests self (station_id f) (reverse_order f)
                      (next_after_ts f) (next_before_ts f) ps
      /\ length (sleeps tr') = length ps.
Proof.
  induction ps as [ | page ps IH ]; intros f tr Hlast Hneed Hint Hsleep Hserved;
    [ done | ].
  set (rq := measurements_request self (station_id f) (next_after_ts f)
               (next_before_ts f) (PInt 2500) (reverse_order f)).
  assert (exec env self (length (turn_labels page)) (AtWhile f) (w0 ++ tr)
          = (turn_labels page, AtWhile (advance f page),
             (w0 ++ tr) ++ [EvGet rq; EvSleep (poll_delay f)])) as Hturn.
  { rewrite length_turn_labels. apply exec_loop_turn; [ done | done | | ].
    - apply (Hserved 0%nat page); [ done | lia ].
    - rewrite <- app_assoc. apply Hsleep. }
  destruct ps as [ | page2 ps ].
  - exists (advance f page), [EvGet rq; EvSleep (poll_delay f)].
    unfold script_labels. cbn [map concat]. rewrite app_nil_r, Hturn.
    rewrite need_measurements_advance. by rewrite <- app_assoc.
  - destruct Hlast as [Hmore Hlast].
    destruct (advance_cursor_more f page Hmore) as [Hafter Hbefore].
    destruct (IH (advance f page) (tr ++ [EvGet rq; EvSleep (poll_delay f)]))
      as (f' & tr' & Hrun & Hstop & Hgets & Hsleeps).
    + done.
    + by rewrite need_measurements_advance.
    + by rewrite station_id_advance.
    + intros tr'. rewrite poll_delay_advance. apply Hsleep.
    + intros j page' Hj tr0 rq0 Hlen. apply (Hserved (S j) page' Hj tr0 rq0).
      rewrite Hlen, gets_app, length_app. cbn. lia.
    + exists f', ([EvGet rq; EvSleep (poll_delay f)] ++ tr').
      change (script_labels (page :: page2 :: ps))
        with (turn_labels page ++ script_labels (page2 :: ps)).
      rewrite length_app, exec_app, Hturn. cbv beta iota.
      rewrite <- (app_assoc w0), Hrun. rewrite <- !app_assoc.
      split; [ done | ]. split; [ done | ].
      rewrite gets_app, sleeps_app, length_app, Hgets, Hsleeps.
      rewrite station_id_advance, reverse_order_advance, Hafter, Hbefore.
      split; [ | done ]. cbn [gets omap app script_requests]. fold rq.
      by destruct (reverse_order f).
Qed.
End Scripts.

(** X8.  A server that hands out the pages [ps] one per request, all but
    the last reporting further data, is drained completely: a consumer that
    iterates to the end receives the measurements of all pages in page
    order and then a clean end of iteration.  The requests sent are exactly
    one per page; the first carries the caller's bounds and each later one
    carries the previous page's [next_ts] on the side of travel and the
    caller's bound on the other.  The iterator pauses once per page,
    after the last page as well. *)
Theorem script_is_delivered_in_order
    (env : environment) (self : MagstarV1API)
    (sid after_ts before_ts : pyval) (rev : bool) (delay d : pyval) (w0 : world)
    (ps : list MagstarMeasurementResult.t) :
  isinstance sid cls_int = true ->
  py_max delay float_0_1 = Returns d ->
  (forall tr, time_sleep env (w0 ++ tr) d = Returns tt) ->
  serves env w0 ps ->
  ends_with_last_page ps ->
  forall fuel : nat,
    (length (script_labels ps) + 2 <= fuel)%nat ->
    exists w,
      exhaust env self fuel
        (iterate_station_measurements sid after_ts before_ts rev delay) w0
      = Some (Tau :: script_labels ps ++ [Stopped], Finished, w)
      /\ yields (Tau :: script_labels ps ++ [Stopped])
         = concat (map MagstarMeasurementResult.measurements ps)
      /\ pages (Tau :: script_labels ps ++ [Stopped]) = ps
      /\ gets w = gets w0 ++ script_requests self sid rev after_ts before_ts ps
      /\ length (sleeps w) = (length (sleeps w0) + length ps)%nat.
Proof.
  intros Hint Hmax Hsleep Hserved Hlast fuel Hfuel.
  set (f0 := {| station_id := sid; reverse_order := rev; poll_delay := d;
                need_measurements := PBool true;
                next_after_ts := after_ts; next_before_ts := before_ts |}).
  destruct (exec_script env self w0 ps f0 []) as (f' & tr' & Hrun & Hstop & Hgets & Hsleeps);
    try done.
  rewrite app_nil_r in Hrun. cbn [app] in Hrun.
  assert (exec env self (1 + length (script_labels ps))
            (iterate_station_measurements sid after_ts before_ts rev delay) w0
          = (Tau :: script_labels ps, AtWhile f', w0 ++ tr')) as Hall.
  { cbn [Nat.add exec step iterate_station_measurements]. rewrite Hmax. fold f0.
    by rewrite Hrun. }
  exists (w0 ++ tr'). split; [ | split; [ | split; [ | split ] ] ].
  - replace fuel with ((1 + length (script_labels ps) + 1)
                       + (fuel - (1 + length (script_labels ps) + 1)))%nat by lia.
    apply exhaust_more_fuel.
    rewrite (exhaust_after_exec env self _ 1 _ _ _ _ _ Hall)
      by (cbn; apply existsb_ends_iteration_script).
    cbn. by rewrite Hstop.
  - change (yields (Tau :: ?l)) with (yields l).
    by rewrite yields_app, yields_script_labels, app_nil_r.
  - change (pages (Tau :: ?l)) with (pages l).
    by rewrite pages_app, pages_script_labels, app_nil_r.
  - by rewrite gets_app, Hgets.
  - by rewrite sleeps_app, length_app, Hsleeps.
Qed.

(** ** Iterations that do not end *)

Section Endless.
Context (env : environment) (self : MagstarV1API).
Hypothesis sleep_returns : forall w d, time_sleep env w d = Returns tt.

Lemma exhaust_never_ends (Hmore : always_more env) (fuel : nat) :
  (forall f w,
      py_truthy (need_measurements f) = true ->
      isinstance (station_id f) cls_int = true ->
      exhaust env self fuel (AtWhile f) w = None)
  /\ (forall f page rest w,
        py_truthy (MagstarMeasurementResult.has_further_data page) = true ->
        isinstance (station_id f) cls_int = true ->
        exhaust env self fuel (InFor f page rest) w = None).
Proof.
  induction fuel as [ | fuel [IHwhile IHfor] ]; [ done | ]. split.
  - intros f w Hneed Hint. cbn. rewrite Hneed.
    rewrite get_station_measurements_by_id_sends by done.
    destruct (Hmore w (measurements_request self (station_id f) (next_after_ts f)
                         (next_before_ts f) (PInt 2500) (reverse_order f)))
      as (page & -> & Hpage).
    cbn. by rewrite IHfor.
  - intros f page [ | m rest ] w Hpage Hint; cbn.
    + unfold sleep. rewrite sleep_returns. cbn.
      rewrite IHwhile; [ done | | ].
      * by rewrite need_measurements_advance.
      * by rewrite station_id_advance.
    + by rewrite IHfor.
Qed.

Lemma gen_next_never_returns (Hempty : always_more_and_empty env) (fuel : nat) :
  (forall f w,
      py_truthy (need_measurements f) = true ->
      isinstance (station_id f) cls_int = true ->
      gen_next env self fuel (AtWhile f) w = None)
  /\ (forall f page w,
        py_truthy (MagstarMeasurementResult.has_further_data page) = true ->
        isinstance (station_id f) cls_int = true ->
        gen_next env self fuel (InFor f page []) w = None).
Proof.
  induction fuel as [ | fuel [IHwhile IHfor] ]; [ done | ]. split.
  - intros f w Hneed Hint. cbn. rewrite Hneed.
    rewrite get_station_measurements_by_id_sends by done.
    destruct (Hempty w (measurements_request self (station_id f) (next_after_ts f)
                          (next_before_ts f) (PInt 2500) (reverse_order f)))
      as (page & -> & Hpage & ->).
    cbn. by rewrite IHfor.
  - intros f page w Hpage Hint. cbn. unfold sleep. rewrite sleep_returns. cbn.
    rewrite IHwhile; [ done | | ].
    + by rewrite need_measurements_advance.
    + by rewrite station_id_advance.
Qed.
End Endless.

(** X9.  While the server keeps reporting further data the iteration does
    not end: whatever bound is put on the number of steps, a consumer that
    iterates to the end is still iterating when the bound is reached.  This
    is the live tail of a station whose data keeps arriving. *)
Theorem iteration_never_ends_while_more_is_reported
    (env : environment) (self : MagstarV1API)
    (sid after_ts before_ts : pyval) (rev : bool) (delay : pyval) (w0 : world) :
  isinstance sid cls_int = true ->
  is_number delay = true ->
  always_more env ->
  (forall w d, time_sleep env w d = Returns tt) ->
  forall fuel,
    exhaust env self fuel
      (iterate_station_measurements sid after_ts before_ts rev delay) w0 = None.
Proof.
  intros Hint Hnum Hmore Hsleep [ | fuel ]; [ done | ].
  destruct (py_max_number delay Hnum) as [d Hd]. cbn. rewrite Hd. cbn.
  by rewrite (proj1 (exhaust_never_ends env self Hsleep Hmore fuel)).
Qed.

(** X10.  If the server keeps answering with pages that hold no
    measurement yet report further data, a single request for the next
    element never returns: the generator goes on fetching and pausing
    without ever yielding, stopping or raising. *)
Theorem next_never_returns_on_empty_pages
    (env : environment) (self : MagstarV1API)
    (sid after_ts before_ts : pyval) (rev : bool) (delay : pyval) (w0 : world) :
  isinstance sid cls_int = true ->
  is_number delay = true ->
  always_more_and_empty env ->
  (forall w d, time_sleep env w d = Returns tt) ->
  forall fuel,
    gen_next env self fuel
      (iterate_station_measurements sid after_ts before_ts rev delay) w0 = None.
Proof.
  intros Hint Hnum Hempty Hsleep [ | fuel ]; [ done | ].
  destruct (py_max_number delay Hnum) as [d Hd]. cbn. rewrite Hd. cbn.
  by rewrite (proj1 (gen_next_never_returns env self Hsleep Hempty fuel)).
Qed.

(** ** Arguments are checked when the first element is asked for *)

(** X11.  Calling the iterator never fails; bad arguments surface at the
    first [next].  A [poll_delay] that is not a number raises [TypeError]
    there, before anything else is looked at; otherwise a station id that
    is not an integer raises [AssertionError].  In both cases the generator
    is finished and no request has been sent. *)
Theorem first_next_reports_bad_arguments
    (env : environment) (self : MagstarV1API)
    (sid after_ts before_ts : pyval) (rev : bool) (delay : pyval) (w0 : world) :
  (is_number delay = false ->
   forall fuel, (1 <= fuel)%nat ->
     gen_next env self fuel
       (iterate_station_measurements sid after_ts before_ts rev delay) w0
     = Some ([Raised TypeError], Finished, w0))
  /\ (is_number delay = true ->
      isinstance sid cls_int = false ->
      forall fuel, (2 <= fuel)%nat ->
        gen_next env self fuel
          (iterate_station_measurements sid after_ts before_ts rev delay) w0
        = Some ([Tau; Raised AssertionError], Finished, w0)).
Proof.
  split.
  - intros Hnum [ | fuel ] Hfuel; [ lia | ].
    cbn. by rewrite (py_max_not_number delay Hnum).
  - intros Hnum Hint [ | [ | fuel ] ] Hfuel; try lia.
    destruct (py_max_number delay Hnum) as [d Hd]. cbn. rewrite Hd. cbn.
    unfold get_station_measurements_by_id, bind. by rewrite Hint.
Qed.

(** ** A pause that fails *)

(** X12.  The pause comes after the measurements of a page and before the
    loop test, so a [time.sleep] that raises ends the iteration with that
    error once the page has been handed over in full -- after the last
    page too, where a clean end was due.  One request has been sent and
    none follows.  A NaN delay reaches [time.sleep] unclamped, since
    [max(nan, 0.1)] is NaN. *)
Theorem failing_pause_ends_iteration
    (env : environment) (self : MagstarV1API)
    (sid after_ts before_ts : pyval) (rev : bool) (delay d : pyval) (w0 : world)
    (page : MagstarMeasurementResult.t) (e : exn) :
  let rq := measurements_request self sid after_ts before_ts (PInt 2500) rev in
  isinstance sid cls_int = true ->
  py_max delay float_0_1 = Returns d ->
  decode_page (session_get env w0 rq) = Returns page ->
  time_sleep env (w0 ++ [EvGet rq]) d = Raises e ->
  (forall fuel,
      (length (MagstarMeasurementResult.measurements page) + 3 <= fuel)%nat ->
      exhaust env self fuel
        (iterate_station_measurements sid after_ts before_ts rev delay) w0
      = Some (Tau :: Fetched page
                :: map Yielded (MagstarMeasurementResult.measurements page)
                ++ [Raised e],
              Finished, w0 ++ [EvGet rq; EvSleep d]))
  /\ py_max (PFloat S754_nan) float_0_1 = Returns (PFloat S754_nan).
Proof.
  intros rq Hint Hmax Hpage Hsleep. split; [ | reflexivity ].
  intros fuel Hfuel.
  set (f0 := {| station_id := sid; reverse_order := rev; poll_delay := d;
                need_measurements := PBool true;
                next_after_ts := after_ts; next_before_ts := before_ts |}).
  assert (exec env self (2 + length (MagstarMeasurementResult.measurements page))
            (iterate_station_measurements sid after_ts before_ts rev delay) w0
          = (Tau :: Fetched page
               :: map Yielded (MagstarMeasurementResult.measurements page),
             InFor f0 page [], w0 ++ [EvGet rq])) as Hrun.
  { cbn [Nat.add exec step iterate_station_measurements]. rewrite Hmax.
    cbn [exec step need_measurements py_truthy].
    rewrite get_station_measurements_by_id_sends by done.
    cbn [station_id next_after_ts next_before_ts reverse_order]. fold rq.
    rewrite Hpage. cbv beta iota. fold f0. by rewrite exec_page. }
  replace fuel with ((2 + length (MagstarMeasurementResult.measurements page) + 1)
                     + (fuel - (2 + length (MagstarMeasurementResult.measurements page)
                                + 1)))%nat by lia.
  apply exhaust_more_fuel.
  rewrite (exhaust_after_exec env self _ 1 _ _ _ _ _ Hrun)
    by (cbn; apply existsb_ends_iteration_map_Yielded).
  cbn. unfold sleep. rewrite poll_delay_advance. cbn [poll_delay f0].
  rewrite Hsleep. cbn. by rewrite <- !app_assoc.
Qed.

(** ** The traffic of a run *)

Lemma is_page_request_measurements_request self sid after_ts before_ts rev :
  is_page_request self sid rev
    (measurements_request self sid after_ts before_ts (PInt 2500) rev).
Proof.
  unfold is_page_request. split; [ reflexivity | ].
  split; [ reflexivity | ]. split; [ reflexivity | ].
  eexists. split; [ reflexivity | ].
  by rewrite measurement_params_limit, measurement_params_reverse_order.
Qed.

Ltac tally :=
  rewrite ?pages_app, ?raised_app, ?gets_app, ?sleeps_app, ?length_app in *;
  try match goal with H : raised _ = [] |- _ => rewrite ?H end;
  cbn in *;
  try lia.

Section Traffic.
Context (env : environment) (self : MagstarV1API).
Context (sid after0 before0 : pyval) (rev : bool) (delay : pyval) (w0 : world).

Local Abbreviation inv := (run_invariant sid after0 before0 rev delay w0).
Local Abbreviation traffic := (traffic_invariant self sid rev).

Lemma traffic_step labs g tr lab g' w' :
  inv labs g (w0 ++ tr) ->
  traffic labs g tr ->
  step env self g (w0 ++ tr) = (lab, g', w') ->
  exists evs, w' = w0 ++ (tr ++ evs) /\ traffic (labs ++ [lab]) g' (tr ++ evs).
Proof.
  intros (tr2 & Htr & Hg) (Hall & Hcount & Hraised & Hstate) Hstep.
  apply app_inv_head in Htr as <-.
  destruct g as [ sid' after' before' rev' delay' | f | f page rest | ]; cbn in Hstep.
  - destruct Hstate as [-> ->].
    destruct (py_max delay' float_0_1); injection Hstep as <- <- <-;
      exists []; (split; [ cbn [app]; by rewrite ?app_nil_r | ]);
      unfold traffic_invariant; cbn; repeat split; (done || lia || constructor).
  - destruct Hg as ((Hsid & Hrev & _) & _). destruct Hstate as [Hnone Hsleeps].
    rewrite Hnone in *.
    destruct (py_truthy (need_measurements f)).
    + pose proof (get_station_measurements_by_id_world env self (station_id f)
                    (next_after_ts f) (next_before_ts f) (PInt 2500)
                    (reverse_order f) (w0 ++ tr)) as Hworld.
      pose proof (is_page_request_measurements_request self (station_id f)
                    (next_after_ts f) (next_before_ts f) (reverse_order f)) as Hrq.
      rewrite Hsid, Hrev in Hrq.
      destruct (get_station_measurements_by_id env self _ _ _ _ _ _)
        as [[next_page | e] w1] eqn:Hfetch; injection Hstep as <- <- <-; cbn in Hworld.
      * apply get_station_measurements_by_id_returns in Hfetch as Hint.
        rewrite get_station_measurements_by_id_sends in Hfetch by done.
        injection Hfetch as _ <-. eexists. split; [ by rewrite <- app_assoc | ].
        unfold traffic_invariant. tally.
        repeat split; try done; try lia.
        apply Forall_app. split; [ done | ].
        constructor; [ | constructor ]. by rewrite Hsid, Hrev.
      * destruct Hworld as [-> | ->].
        -- exists []. split; [ cbn [app]; by rewrite ?app_nil_r | ].
           unfold traffic_invariant. rewrite app_nil_r. tally.
           repeat split; try done; lia.
        -- eexists. split; [ by rewrite <- app_assoc | ].
           unfold traffic_invariant. tally.
           repeat split; try done; try lia.
           apply Forall_app. split; [ done | ].
        constructor; [ | constructor ]. by rewrite Hsid, Hrev.
    + injection Hstep as <- <- <-. exists []. split; [ cbn [app]; by rewrite ?app_nil_r | ].
      unfold traffic_invariant. rewrite app_nil_r. tally.
      repeat split; try done; lia.
  - destruct Hstate as [Hnone Hsleeps]. rewrite Hnone in *.
    destruct rest as [ | m rest ].
    + unfold sleep in Hstep.
      destruct (time_sleep env _ _); injection Hstep as <- <- <-;
        (eexists; split; [ by rewrite <- app_assoc | ]);
        unfold traffic_invariant; tally;
        rewrite ?app_nil_r; repeat split; try done; lia.
    + injection Hstep as <- <- <-. exists []. split; [ cbn [app]; by rewrite ?app_nil_r | ].
      unfold traffic_invariant. rewrite app_nil_r. tally.
      repeat split; try done; lia.
  - injection Hstep as <- <- <-. exists []. split; [ cbn [app]; by rewrite ?app_nil_r | ].
    unfold traffic_invariant. rewrite app_nil_r. tally.
    repeat split; try done; lia.
Qed.

Lemma traffic_exec n :
  forall labs0 g tr labs g' w',
    inv labs0 g (w0 ++ tr) ->
    traffic labs0 g tr ->
    exec env self n g (w0 ++ tr) = (labs, g', w') ->
    exists tr', w' = w0 ++ tr' /\ traffic (labs0 ++ labs) g' tr'.
Proof.
  induction n as [ | n IH ]; intros labs0 g tr labs g' w' Hinv Htraffic; cbn.
  - intros [= <- <- <-]. exists tr. by rewrite app_nil_r.
  - destruct (step env self g (w0 ++ tr)) as [[lab g1] w1] eqn:Hstep.
    destruct (exec env self n g1 w1) as [[labs1 g2] w2] eqn:Hrun.
    intros [= <- <- <-].
    destruct (traffic_step _ _ _ _ _ _ Hinv Htraffic Hstep) as (evs & -> & Htraffic1).
    pose proof (run_invariant_step env self _ _ _ _ _ _ _ _ _ _ _ _ Hinv Hstep) as Hinv1.
    replace (labs0 ++ lab :: labs1) with ((labs0 ++ [lab]) ++ labs1)
      by by rewrite <- app_assoc.
    by eapply IH.
Qed.

Lemma traffic_reachable n labs g w :
  exec env self n (iterate_station_measurements sid after0 before0 rev delay) w0
    = (labs, g, w) ->
  exists tr, w = w0 ++ tr /\ traffic labs g tr.
Proof.
  intros Hrun. rewrite <- (app_nil_r w0) in Hrun.
  change labs with ([] ++ labs).
  eapply traffic_exec; [ | | exact Hrun ].
  - rewrite app_nil_r. apply run_invariant_start.
  - unfold traffic_invariant. cbn. repeat split; (done || lia || constructor).
Qed.
End Traffic.

(** X13.  Whatever the server answers and however far the consumer goes,
    every request the iterator sends is a page request for the caller's
    station: the measurements path of that station, the API key and client
    identifier headers, [limit] 2500 and the caller's [reverse_order]. *)
Theorem every_request_is_a_page_request
    (env : environment) (self : MagstarV1API)
    (sid after0 before0 : pyval) (rev : bool) (delay : pyval) (w0 : world)
    (n : nat) (labs : list label) (g : generator) (w : world) :
  exec env self n (iterate_station_measurements sid after0 before0 rev delay) w0
    = (labs, g, w) ->
  exists tr, w = w0 ++ tr /\ Forall (is_page_request self sid rev) (gets tr).
Proof.
  intros Hrun.
  destruct (traffic_reachable env self _ _ _ _ _ _ _ _ _ _ Hrun) as (tr & -> & Hall & _).
  by exists tr.
Qed.

(** X14.  The traffic of a run is accounted for by what the consumer saw:
    every page fetched cost one request, and the only other request there
    can be is the one of a fetch that raised; the iterator pauses at most
    once per fetched page; and it raises at most once. *)
Theorem traffic_is_one_request_per_page
    (env : environment) (self : MagstarV1API)
    (sid after0 before0 : pyval) (rev : bool) (delay : pyval) (w0 : world)
    (n : nat) (labs : list label) (g : generator) (w : world) :
  exec env self n (iterate_station_measurements sid after0 before0 rev delay) w0
    = (labs, g, w) ->
  exists tr,
    w = w0 ++ tr
    /\ (length (pages labs) <= length (gets tr)
        <= length (pages labs) + length (raised labs))%nat
    /\ (length (sleeps tr) <= length (pages labs))%nat
    /\ (length (raised labs) <= 1)%nat.
Proof.
  intros Hrun.
  destruct (traffic_reachable env self _ _ _ _ _ _ _ _ _ _ Hrun)
    as (tr & -> & _ & Hcount & Hraised & Hstate).
  exists tr. repeat split; try done; try lia.
  destruct g; destruct Hstate as [? ?] || idtac; subst; cbn in *; lia.
Qed.

(** X15.  In every run the consumer has received a prefix of what was
    fetched: the measurements of the fetched pages, in page order and
    within a page in the page's order, none twice and none invented.  Once
    the generator is finished -- exhausted or failed -- nothing fetched is
    left undelivered. *)
Theorem delivered_is_a_prefix_of_fetched
    (env : environment) (self : MagstarV1API)
    (sid after0 before0 : pyval) (rev : bool) (delay : pyval) (w0 : world)
    (n : nat) (labs : list label) (g : generator) (w : world) :
  exec env self n (iterate_station_measurements sid after0 before0 rev delay) w0
    = (labs, g, w) ->
  exists pending,
    concat (map MagstarMeasurementResult.measurements (pages labs))
    = yields labs ++ pending
    /\ (g = Finished -> pending = []).
Proof.
  intros Hrun. apply run_invariant_reachable in Hrun as (tr & -> & Hg).
  destruct g as [ ? ? ? ? ? | f | f page rest | ].
  - destruct Hg as (_ & _ & _ & _ & _ & -> & _). by exists [].
  - destruct Hg as (_ & Hfull & _). exists []. by rewrite app_nil_r, Hfull.
  - destruct Hg as (_ & _ & _ & earlier & done & Hpages & Hmeas & Hyields).
    exists rest. split; [ | done ].
    rewrite Hpages, Hyields, map_app, concat_app. cbn.
    by rewrite Hmeas, app_nil_r, app_assoc.
  - destruct Hg as (Hfull & _). exists []. by rewrite app_nil_r, Hfull.
Qed.

(** ** Station ids in paths *)

Lemma string_length_app (s t : string) :
  String.length (s +:+ t) = (String.length s + String.length t)%nat.
Proof. induction s as [ | c s IH ]; simpl; [ done | by f_equal ]. Qed.

Lemma string_app_inj_r (s1 s2 t : string) : s1 +:+ t = s2 +:+ t -> s1 = s2.
Proof.
  revert s2. induction s1 as [ | c s1 IH ]; intros [ | c' s2 ] Heq.
  - done.
  - apply (f_equal String.length) in Heq.
    rewrite !string_length_app in Heq. simpl in Heq. lia.
  - apply (f_equal String.length) in Heq.
    rewrite !string_length_app in Heq. simpl in Heq. lia.
  - simpl in Heq. injection Heq as -> Heq. f_equal. by apply IH.
Qed.

(** X16.  For different integer station ids the client asks for
    different paths: the [sub_url] handed to [urljoin] spells the id in
    decimal, and two ids with the same spelling are equal.  This holds for
    the station details and for the measurement pages. *)
Theorem distinct_stations_distinct_requests
    (env : environment) (self : MagstarV1API) (id1 id2 : Z)
    (after_ts before_ts limit : pyval) (rev : bool) (w : world) :
  id1 <> id2 ->
  (exists rq1 rq2,
      snd (get_station_details_by_id env self (PInt id1) w) = w ++ [EvGet rq1]
      /\ snd (get_station_details_by_id env self (PInt id2) w) = w ++ [EvGet rq2]
      /\ sub_url_of (req_url rq1) = "/v1/stations/" +:+ pretty id1
      /\ sub_url_of (req_url rq2) = "/v1/stations/" +:+ pretty id2
      /\ sub_url_of (req_url rq1) <> sub_url_of (req_url rq2))
  /\ (exists rq1 rq2,
        snd (get_station_measurements_by_id env self (PInt id1) after_ts before_ts
               limit rev w) = w ++ [EvGet rq1]
        /\ snd (get_station_measurements_by_id env self (PInt id2) after_ts before_ts
                  limit rev w) = w ++ [EvGet rq2]
        /\ sub_url_of (req_url rq1)
           = "/v1/stations/" +:+ pretty id1 +:+ "/measurements"
        /\ sub_url_of (req_url rq2)
           = "/v1/stations/" +:+ pretty id2 +:+ "/measurements"
        /\ sub_url_of (req_url rq1) <> sub_url_of (req_url rq2)).
Proof.
  intros Hne. split; eexists _, _.
  - rewrite !get_station_details_by_id_sends by done.
    repeat (split; [ reflexivity | ]). cbn [sub_url_of req_url details_request py_format].
    intros Heq. apply Hne. apply (inj (String.append "/v1/stations/")) in Heq.
    by apply pretty_Z_inj.
  - rewrite !get_station_measurements_by_id_sends by done.
    repeat (split; [ reflexivity | ]).
    cbn [sub_url_of req_url measurements_request py_format].
    intros Heq. apply Hne. apply (inj (String.append "/v1/stations/")) in Heq.
    apply string_app_inj_r in Heq. by apply pretty_Z_inj.
Qed.

(** X17.  A boolean passes the integer check of both operations, since
    [bool] is a subclass of [int]: the request is sent, to a path that
    spells the boolean's name. *)
Theorem booleans_pass_the_integer_check
    (env : environment) (self : MagstarV1API) (b : bool)
    (after_ts before_ts limit : pyval) (rev : bool) (w : world) :
  let name := if b then "True" else "False" in
  (exists rq,
      snd (get_station_details_by_id env self (PBool b) w) = w ++ [EvGet rq]
      /\ req_url rq = urljoin (base_url self) ("/v1/stations/" +:+ name))
  /\ (exists rq,
        snd (get_station_measurements_by_id env self (PBool b) after_ts before_ts
               limit rev w) = w ++ [EvGet rq]
        /\ req_url rq
           = urljoin (base_url self) ("/v1/stations/" +:+ name +:+ "/measurements")).
Proof.
  intros name. split; eexists.
  - rewrite get_station_details_by_id_sends by done. split; [ reflexivity | ].
    by destruct b.
  - rewrite get_station_measurements_by_id_sends by done. split; [ reflexivity | ].
    by destruct b.
Qed.

(** * Worked instances *)

(** Each statement above that has premises is applied here to a concrete
    call against a sample server, with the premises checked by
    evaluation. *)

Lemma get_station_details_rejects_non_integer_witness :
  isinstance (PStr "BOU") cls_int = false
  /\ get_station_details_by_id Sample.three_pages Sample.client (PStr "BOU") []
     = (Raises AssertionError, []).
Proof.
  split; [ reflexivity | ].
  apply get_station_details_rejects_non_integer. reflexivity.
Defined.

Lemma get_station_measurements_rejects_non_integer_witness :
  isinstance (PFloat float_0_1) cls_int = false
  /\ get_station_measurements_by_id Sample.three_pages Sample.client
       (PFloat float_0_1) PNone PNone (PInt 10) true []
     = (Raises AssertionError, []).
Proof.
  split; [ reflexivity | ].
  apply get_station_measurements_rejects_non_integer. reflexivity.
Defined.

Lemma limit_is_passed_through_witness :
  isinstance (PInt 7) cls_int = true
  /\ exists rq params,
       snd (get_station_measurements_by_id Sample.three_pages Sample.client
              (PInt 7) PNone PNone (PInt 5000) false []) = [] ++ [EvGet rq]
       /\ req_params rq = Some params
       /\ params !! "limit" = Some (PInt 5000).
Proof.
  split; [ reflexivity | ].
  apply (limit_is_passed_through Sample.three_pages Sample.client
           (PInt 7) PNone PNone false []).
  reflexivity.
Defined.

Lemma query_parameters_follow_arguments_witness :
  isinstance (PInt 7) cls_int = true
  /\ exists rq params,
       snd (get_station_measurements_by_id Sample.three_pages Sample.client
              (PInt 7) (PInt 3) PNone PNone true []) = [] ++ [EvGet rq]
       /\ req_params rq = Some params
       /\ params !! "reverse_order" = Some (PBool true)
       /\ params !! "after_ts" = Some (PInt 3)
       /\ params !! "before_ts" = None
       /\ params !! "limit" = None
       /\ (forall key, is_Some (params !! key) -> key ∈ page_request_keys).
Proof.
  split; [ reflexivity | ].
  apply (query_parameters_follow_arguments Sample.three_pages Sample.client
           (PInt 7) (PInt 3) PNone PNone true []).
  reflexivity.
Defined.

Lemma get_station_details_returns_requested_id_witness :
  exists d,
    get_station_details_by_id (Sample.scripted [Sample.details 7]) Sample.client
      (PInt 7) []
    = (Returns d,
       [] ++ [EvGet {| req_url := urljoin (base_url Sample.client)
                                    ("/v1/stations/" +:+ pretty 7);
                       req_params := None;
                       req_headers := headers Sample.client |}])
    /\ MagstarStationExtendedData.station_id d = PInt 7.
Proof.
  eapply (get_station_details_returns_requested_id
            (Sample.scripted [Sample.details 7]) Sample.client 7 []).
  - reflexivity.
  - reflexivity.
  - reflexivity.
  - unfold detail_fields. repeat constructor; by eexists.
  - reflexivity.
Defined.

Lemma three_pages_then_stop_witness :
  exists labs w,
    exhaust Sample.three_pages Sample.client 14 SampleRun.call [] = Some (labs, Finished, w)
    /\ yields labs
       = MagstarMeasurementResult.measurements SampleRun.p1
         ++ MagstarMeasurementResult.measurements SampleRun.p2
         ++ MagstarMeasurementResult.measurements SampleRun.p3
    /\ pages labs = [SampleRun.p1; SampleRun.p2; SampleRun.p3]
    /\ raised labs = []
    /\ length (gets w) = (length (gets []) + 3)%nat.
Proof.
  assert (forall k body,
             nth_error [ Sample.page [10; 20] true (PInt 20);
                         Sample.page [30; 40; 50] true (PInt 50);
                         Sample.page [60] false PNone ] k = Some body ->
             nth_page_is Sample.three_pages [] k (SampleRun.decoded body)) as Hscript.
  { intros k body Hbody tr rq Hlen. change ([] ++ tr) with tr.
    unfold Sample.three_pages, Sample.scripted. cbn [session_get].
    rewrite Hlen, Hbody.
    destruct k as [ | [ | [ | k ] ] ]; cbn in Hbody; [ | | | by destruct k ];
      injection Hbody as <-; reflexivity. }
  apply (three_pages_then_stop Sample.three_pages Sample.client
           (PInt 7) PNone (PInt 100) false (PInt 0) (PFloat float_0_1) []
           SampleRun.p1 SampleRun.p2 SampleRun.p3).
  - reflexivity.
  - reflexivity.
  - reflexivity.
  - by apply Hscript.
  - by apply Hscript.
  - by apply Hscript.
  - reflexivity.
  - reflexivity.
  - reflexivity.
  - cbn. lia.
Defined.

Lemma cursor_advances_on_one_side_witness :
  let r := exec Sample.three_pages Sample.client 4 SampleRun.call [] in
  snd (fst r) = InFor
                  {| station_id := PInt 7; reverse_order := false;
                     poll_delay := PFloat float_0_1; need_measurements := PBool true;
                     next_after_ts := PNone; next_before_ts := PInt 100 |}
                  SampleRun.p1 []
  /\ exists lab g',
       exec Sample.three_pages Sample.client 2 (snd (fst r)) (snd r)
       = ([Slept; lab], g',
          snd r ++ [EvSleep (PFloat float_0_1);
                    EvGet (measurements_request Sample.client (PInt 7)
                             (PInt 20) (PInt 100) (PInt 2500) false)]).
Proof.
  intros r. split; [ reflexivity | ].
  refine (proj2 (cursor_advances_on_one_side Sample.three_pages Sample.client
                   (PInt 7) PNone (PInt 100) false (PInt 0) []
                   4 (fst (fst r)) (snd (fst r)) (snd r) _)
            {| station_id := PInt 7; reverse_order := false;
               poll_delay := PFloat float_0_1; need_measurements := PBool true;
               next_after_ts := PNone; next_before_ts := PInt 100 |}
            SampleRun.p1 _ _ _);
    reflexivity.
Defined.

Lemma fetch_error_propagates_witness :
  let r := exec Sample.failing_second_page Sample.client 5 SampleRun.call [] in
  let f := {| station_id := PInt 7; reverse_order := false;
              poll_delay := PFloat float_0_1; need_measurements := PBool true;
              next_after_ts := PInt 20; next_before_ts := PInt 100 |} in
  snd (fst r) = AtWhile f
  /\ yields (fst (fst r)) = MagstarMeasurementResult.measurements SampleRun.p1
  /\ gen_next Sample.failing_second_page Sample.client 1 (AtWhile f) (snd r)
     = Some ([Raised (RequestException "ConnectionError")], Finished,
             snd r ++ [EvGet (measurements_request Sample.client (PInt 7)
                                (PInt 20) (PInt 100) (PInt 2500) false)])
  /\ yields (fst (fst r) ++ Raised (RequestException "ConnectionError")
               :: repeat Stopped 3)
     = yields (fst (fst r)).
Proof.
  intros r f. split; [ reflexivity | ]. split; [ reflexivity | ].
  destruct (fetch_error_propagates Sample.failing_second_page Sample.client
              SampleRun.call [] 5 (fst (fst r)) f (snd r)
              (RequestException "ConnectionError")
              (snd r ++ [EvGet (measurements_request Sample.client (PInt 7)
                                  (PInt 20) (PInt 100) (PInt 2500) false)]))
    as (Hnext & _ & Hkept & _); [ reflexivity | reflexivity | reflexivity | ].
  split; [ apply (Hnext 0%nat) | apply (Hkept 3%nat) ].
Defined.

Lemma pause_is_clamped_poll_delay_witness :
  let r := exec Sample.three_pages Sample.client 14 SampleRun.call [] in
  exists tr b, snd r = [] ++ tr /\ paced (PFloat float_0_1) true tr b.
Proof.
  intros r.
  destruct (pause_is_clamped_poll_delay Sample.three_pages Sample.client
              (PInt 7) PNone (PInt 100) false (PInt 0) []
              14 (fst (fst r)) (snd (fst r)) (snd r))
    as ((tr & Htr & Hpaced & _) & _); [ reflexivity | ].
  destruct (Hpaced (PFloat float_0_1)) as [b Hb]; [ reflexivity | ].
  by exists tr, b.
Defined.

Lemma pages_are_fetched_on_demand_witness :
  (exists g,
      gen_take Sample.three_pages Sample.client 3 1 SampleRun.call []
      = Some ([Tau; Fetched SampleRun.p1;
               Yielded (sample_measurement_record 10)], g,
              [EvGet (measurements_request Sample.client (PInt 7) PNone (PInt 100)
                        (PInt 2500) false)])
      /\ gets [EvGet (measurements_request Sample.client (PInt 7) PNone (PInt 100)
                        (PInt 2500) false)]
         = gets [] ++ [measurements_request Sample.client (PInt 7) PNone (PInt 100)
                         (PInt 2500) false])
  /\ (let f := {| station_id := PInt 7; reverse_order := false;
                  poll_delay := PFloat float_0_1; need_measurements := PBool true;
                  next_after_ts := PNone; next_before_ts := PInt 100 |} in
      let empty := SampleRun.decoded (Sample.page [] true (PInt 5)) in
      let last := SampleRun.decoded (Sample.page [7] false PNone) in
      gen_next Sample.empty_first_page Sample.client 4 (AtWhile f) []
      = Some ([Fetched empty; Slept; Fetched last;
               Yielded (sample_measurement_record 7)],
              InFor (advance f empty) last [],
              [EvGet (measurements_request Sample.client (PInt 7) PNone (PInt 100)
                        (PInt 2500) false);
               EvSleep (PFloat float_0_1);
               EvGet (measurements_request Sample.client (PInt 7) (PInt 5) (PInt 100)
                        (PInt 2500) false)])).
Proof.
  split.
  - refine (proj1 (proj2 (pages_are_fetched_on_demand Sample.three_pages Sample.client
                            (PInt 7) PNone (PInt 100) false (PInt 0) []))
              (PFloat float_0_1) SampleRun.p1 _
              (sample_measurement_record 10) [sample_measurement_record 20]
              _ _ _ 3%nat _); [ reflexivity | reflexivity | reflexivity | lia ].
  - intros f empty last.
    etransitivity.
    + refine (proj2 (proj2 (pages_are_fetched_on_demand Sample.empty_first_page
                              Sample.client (PInt 7) PNone (PInt 100) false (PInt 0) []))
                f [] empty
                [EvGet (measurements_request Sample.client (PInt 7) PNone (PInt 100)
                          (PInt 2500) false)]
                _ _ _ _ _ 1%nat); reflexivity.
    + reflexivity.
Defined.

(** ** Worked instances of the further properties *)

Lemma from_api_reports_first_missing_key_witness :
  MagstarStationExtendedData.from_api
    (PDict [ ("station_id", PInt 7); ("name", PStr "Boulder"); ("location", PNone) ])
  = Raises (KeyError "lat")
  /\ (type_of (PList []) <> cls_dict
      /\ MagstarMeasurement.from_api (PList []) = Raises TypeError).
Proof.
  split.
  - exact (proj1 from_api_reports_first_missing_key
             [ ("station_id", PInt 7); ("name", PStr "Boulder"); ("location", PNone) ]).
  - assert (type_of (PList []) <> cls_dict) as Htype by discriminate.
    split; [ exact Htype | ].
    apply (proj2 (proj2 (proj2 from_api_reports_first_missing_key)) (PList []) Htype).
Defined.

Lemma from_api_reads_only_its_fields_witness :
  MagstarStationData.from_api
    (PDict (("elevation", PInt 1650) :: ("name", PStr "Boulder")
            :: ("station_id", PInt 7) :: [ ("location", PNone); ("lat", PNone);
                 ("lon", PNone); ("acronym", PNone); ("status", PNone);
                 ("last_seen", PNone) ]))
  = MagstarStationData.from_api (SampleMore.summary 7 "Boulder").
Proof.
  apply (proj1 (proj2 (from_api_reads_only_its_fields _ _))).
  unfold summary_fields. repeat constructor.
Defined.

Lemma page_from_api_all_or_nothing_witness :
  MagstarMeasurementResult.from_api
    (PDict [ ("measurements",
              PList [ Sample.measurement 10; PInt 3; Sample.measurement 20 ]);
             ("has_further_data", PBool false); ("next_ts", PNone) ])
  = Raises TypeError.
Proof.
  refine (proj2 (page_from_api_all_or_nothing _ _ _)
            [ Sample.measurement 10 ] (PInt 3) [ Sample.measurement 20 ] TypeError
            _ _ _).
  - reflexivity.
  - reflexivity.
  - repeat constructor. by eexists.
  - reflexivity.
Defined.

Lemma page_from_api_measurements_not_an_array_witness :
  let empty := {| MagstarMeasurementResult.measurements := [];
                  MagstarMeasurementResult.has_further_data := PBool true;
                  MagstarMeasurementResult.next_ts := PInt 5 |} in
  MagstarMeasurementResult.from_api
    (PDict [ ("measurements", PStr ""); ("has_further_data", PBool true);
             ("next_ts", PInt 5) ]) = Returns empty
  /\ MagstarMeasurementResult.from_api
       (PDict [ ("measurements", PDict []); ("has_further_data", PBool true);
                ("next_ts", PInt 5) ]) = Returns empty
  /\ MagstarMeasurementResult.from_api
       (PDict [ ("measurements", PNone); ("has_further_data", PBool true);
                ("next_ts", PInt 5) ]) <> Returns empty.
Proof.
  intros empty. split; [ | split ].
  - apply (proj2 (page_from_api_measurements_not_an_array
                    [ ("measurements", PStr ""); ("has_further_data", PBool true);
                      ("next_ts", PInt 5) ] (PStr "") eq_refl
                    ltac:(discriminate) empty)).
    split; [ by left | by repeat split ].
  - apply (proj2 (page_from_api_measurements_not_an_array
                    [ ("measurements", PDict []); ("has_further_data", PBool true);
                      ("next_ts", PInt 5) ] (PDict []) eq_refl
                    ltac:(discriminate) empty)).
    split; [ by right | by repeat split ].
  - intros Hpage.
    apply (proj1 (page_from_api_measurements_not_an_array
                    [ ("measurements", PNone); ("has_further_data", PBool true);
                      ("next_ts", PInt 5) ] PNone eq_refl
                    ltac:(discriminate) empty)) in Hpage as [[? | ?] _];
      discriminate.
Defined.

Lemma get_stations_keeps_server_order_witness :
  exists stations,
    fst (get_stations SampleMore.two_stations Sample.client []) = Returns stations
    /\ length stations = 2%nat.
Proof.
  eexists. split; [ reflexivity | ].
  refine (proj2 (proj2 (get_stations_keeps_server_order SampleMore.two_stations
                          Sample.client []
                          {| status_code := 200;
                             body_json := Some (PList [ SampleMore.summary 7 "Boulder";
                                                        SampleMore.summary 9 "Fairbanks" ]) |}
                          [ SampleMore.summary 7 "Boulder";
                            SampleMore.summary 9 "Fairbanks" ] _ _ _)) _ _);
    reflexivity.
Defined.

Lemma script_is_delivered_in_order_witness :
  exists w,
    exhaust Sample.three_pages Sample.client 14 SampleRun.call []
    = Some (Tau :: script_labels [SampleRun.p1; SampleRun.p2; SampleRun.p3] ++ [Stopped],
            Finished, w)
    /\ yields (Tau :: script_labels [SampleRun.p1; SampleRun.p2; SampleRun.p3]
                 ++ [Stopped])
       = concat (map MagstarMeasurementResult.measurements
                   [SampleRun.p1; SampleRun.p2; SampleRun.p3])
    /\ pages (Tau :: script_labels [SampleRun.p1; SampleRun.p2; SampleRun.p3]
                ++ [Stopped])
       = [SampleRun.p1; SampleRun.p2; SampleRun.p3]
    /\ gets w = gets [] ++ script_requests Sample.client (PInt 7) false PNone (PInt 100)
                             [SampleRun.p1; SampleRun.p2; SampleRun.p3]
    /\ length (sleeps w)
       = (length (sleeps []) + length [SampleRun.p1; SampleRun.p2; SampleRun.p3])%nat.
Proof.
  apply (script_is_delivered_in_order Sample.three_pages Sample.client
           (PInt 7) PNone (PInt 100) false (PInt 0) (PFloat float_0_1) []
           [SampleRun.p1; SampleRun.p2; SampleRun.p3]).
  - reflexivity.
  - reflexivity.
  - reflexivity.
  - intros k page Hpage tr rq Hlen. change ([] ++ tr) with tr.
    unfold Sample.three_pages, Sample.scripted. cbn [session_get]. rewrite Hlen.
    destruct k as [ | [ | [ | k ] ] ]; cbn in Hpage; [ | | | by destruct k ];
      injection Hpage as <-; reflexivity.
  - cbn. by repeat split.
  - cbn. lia.
Defined.

Lemma iteration_never_ends_while_more_is_reported_witness :
  exhaust SampleMore.endless Sample.client 1000 SampleRun.call [] = None.
Proof.
  apply iteration_never_ends_while_more_is_reported.
  - reflexivity.
  - reflexivity.
  - intros w rq. eexists. split; reflexivity.
  - reflexivity.
Defined.

Lemma next_never_returns_on_empty_pages_witness :
  gen_next SampleMore.endless_empty Sample.client 1000 SampleRun.call [] = None.
Proof.
  apply next_never_returns_on_empty_pages.
  - reflexivity.
  - reflexivity.
  - intros w rq. eexists. repeat split; reflexivity.
  - reflexivity.
Defined.

Lemma first_next_reports_bad_arguments_witness :
  gen_next Sample.three_pages Sample.client 1
    (iterate_station_measurements (PInt 7) PNone PNone false (PStr "fast")) []
  = Some ([Raised TypeError], Finished, [])
  /\ gen_next Sample.three_pages Sample.client 2
       (iterate_station_measurements (PStr "BOU") PNone PNone false (PInt 1)) []
     = Some ([Tau; Raised AssertionError], Finished, []).
Proof.
  split.
  - apply (proj1 (first_next_reports_bad_arguments Sample.three_pages Sample.client
                    (PInt 7) PNone PNone false (PStr "fast") []));
      [ reflexivity | lia ].
  - apply (proj2 (first_next_reports_bad_arguments Sample.three_pages Sample.client
                    (PStr "BOU") PNone PNone false (PInt 1) []));
      [ reflexivity | reflexivity | lia ].
Defined.

Lemma failing_pause_ends_iteration_witness :
  let rq := measurements_request Sample.client (PInt 7) PNone PNone (PInt 2500) false in
  let page := SampleRun.decoded (Sample.page [10; 20] false PNone) in
  exhaust SampleMore.rejecting_sleep Sample.client 5
    (iterate_station_measurements (PInt 7) PNone PNone false (PFloat S754_nan)) []
  = Some (Tau :: Fetched page
            :: map Yielded (MagstarMeasurementResult.measurements page)
            ++ [Raised ValueError],
          Finished, [] ++ [EvGet rq; EvSleep (PFloat S754_nan)]).
Proof.
  intros rq page.
  refine (proj1 (failing_pause_ends_iteration SampleMore.rejecting_sleep Sample.client
                   (PInt 7) PNone PNone false (PFloat S754_nan) (PFloat S754_nan) []
                   page ValueError _ _ _ _) 5%nat _);
    reflexivity.
Defined.

Lemma every_request_is_a_page_request_witness :
  let r := exec Sample.failing_second_page Sample.client 9 SampleRun.call [] in
  exists tr,
    snd r = [] ++ tr
    /\ Forall (is_page_request Sample.client (PInt 7) false) (gets tr).
Proof.
  intros r.
  apply (every_request_is_a_page_request Sample.failing_second_page Sample.client
           (PInt 7) PNone (PInt 100) false (PInt 0) []
           9 (fst (fst r)) (snd (fst r)) (snd r)).
  reflexivity.
Defined.

Lemma traffic_is_one_request_per_page_witness :
  let r := exec Sample.failing_second_page Sample.client 9 SampleRun.call [] in
  exists tr,
    snd r = [] ++ tr
    /\ (length (pages (fst (fst r))) <= length (gets tr)
        <= length (pages (fst (fst r))) + length (raised (fst (fst r))))%nat
    /\ (length (sleeps tr) <= length (pages (fst (fst r))))%nat
    /\ (length (raised (fst (fst r))) <= 1)%nat.
Proof.
  intros r.
  apply (traffic_is_one_request_per_page Sample.failing_second_page Sample.client
           (PInt 7) PNone (PInt 100) false (PInt 0) []
           9 (fst (fst r)) (snd (fst r)) (snd r)).
  reflexivity.
Defined.

Lemma delivered_is_a_prefix_of_fetched_witness :
  let r := exec Sample.three_pages Sample.client 7 SampleRun.call [] in
  exists pending,
    concat (map MagstarMeasurementResult.measurements (pages (fst (fst r))))
    = yields (fst (fst r)) ++ pending
    /\ (snd (fst r) = Finished -> pending = []).
Proof.
  intros r.
  apply (delivered_is_a_prefix_of_fetched Sample.three_pages Sample.client
           (PInt 7) PNone (PInt 100) false (PInt 0) []
           7 (fst (fst r)) (snd (fst r)) (snd r)).
  reflexivity.
Defined.

Lemma distinct_stations_distinct_requests_witness :
  7 <> 8
  /\ exists rq1 rq2,
       snd (get_station_details_by_id Sample.three_pages Sample.client (PInt 7) [])
       = [] ++ [EvGet rq1]
       /\ snd (get_station_details_by_id Sample.three_pages Sample.client (PInt 8) [])
          = [] ++ [EvGet rq2]
       /\ sub_url_of (req_url rq1) = "/v1/stations/" +:+ pretty 7
       /\ sub_url_of (req_url rq2) = "/v1/stations/" +:+ pretty 8
       /\ sub_url_of (req_url rq1) <> sub_url_of (req_url rq2).
Proof.
  assert (7 <> 8) as Hne by lia.
  split; [ exact Hne | ].
  exact (proj1 (distinct_stations_distinct_requests Sample.three_pages Sample.client
                  7 8 PNone PNone PNone false [] Hne)).
Defined.

Lemma get_sends_once_and_checks_status_witness :
  fst (_get SampleErrors.not_found Sample.client "/v1/stations/3" None [])
  = Raises (HTTPError 404).
Proof.
  destruct (get_sends_once_and_checks_status SampleErrors.not_found Sample.client
              "/v1/stations/3" None [])
    as (rq & _ & _ & _ & _ & _ & _ & Hstatus).
  apply (Hstatus {| status_code := 404; body_json := Some PNone |});
    [ reflexivity | cbn; lia ].
Defined.

Lemma get_station_details_returns_iff_witness :
  (exists d,
      fst (get_station_details_by_id (Sample.scripted [Sample.details 7]) Sample.client
             (PInt 7) []) = Returns d)
  /\ fst (get_station_details_by_id SampleErrors.not_found Sample.client (PInt 3) [])
     = Raises (HTTPError 404).
Proof.
  split.
  - eexists.
    apply (proj2 (proj1 (get_station_details_returns_iff
                           (Sample.scripted [Sample.details 7])
                           Sample.client (PInt 7) []) _)).
    split; [ reflexivity | ].
    exists {| status_code := 200; body_json := Some (Sample.details 7) |},
      (Sample.details 7).
    split; [ reflexivity | ]. split; [ left; cbn; lia | ].
    split; reflexivity.
  - refine (proj1 (proj2 (proj2 (get_station_details_returns_iff SampleErrors.not_found
                                   Sample.client (PInt 3) []) eq_refl))
              {| status_code := 404; body_json := Some PNone |} eq_refl _).
    cbn. lia.
Defined.

Lemma booleans_pass_the_integer_check_witness :
  exists rq,
    snd (get_station_details_by_id Sample.three_pages Sample.client (PBool true) [])
    = [] ++ [EvGet rq]
    /\ req_url rq = urljoin (base_url Sample.client) "/v1/stations/True".
Proof.
  exact (proj1 (booleans_pass_the_integer_check Sample.three_pages Sample.client true
                  PNone PNone PNone false [])).
Defined.
